(** * surveysim: nightly observability planner and weather table

    A shallow embedding of [py/surveysim/afternoonplan.py] (class
    [surveyPlan]) and [py/surveysim/weather.py] (class [Weather]).

    Number model.  The Python code works on IEEE doubles; here every
    float is a rational [Q].  Comparisons and assignments are exact in
    both worlds, and the constants of the source ([0.0], [-1.0], [15.0],
    [360.0], [0.5], ...) are rationals.  Arithmetic is exact here, so the
    statements below are about the algorithms, not about rounding.
    Integers (tile ids, row offsets, day counts) are [Z]; so are the
    statuses and priorities, which the object keeps in float columns but
    which only ever hold the integers written into them.  Python strings
    are [string]. *)

From Stdlib Require Import QArith Qround Qabs ZArith List String Bool Lia Lqa.
From Stdlib Require Import Permutation Sorted.
Import ListNotations.

Local Open Scope Q_scope.

(** ** Float comparisons *)

(** [x < y] on floats, as a boolean. *)
Definition Qltb (x y : Q) : bool := negb (Qle_bool y x).

(** [x <= y] on floats, as a boolean. *)
Definition Qleb (x y : Q) : bool := Qle_bool x y.

(** ** Exceptions *)

Inductive exn : Type :=
| ValueError
| IndexError
| OverflowError.

Inductive result (A : Type) : Type :=
| Ok (a : A)
| Raise (e : exn).
Arguments Ok {A} a.
Arguments Raise {A} e.

Definition bind {A B : Type} (r : result A) (k : A -> result B) : result B :=
  match r with
  | Ok a => k a
  | Raise e => Raise e
  end.

Notation "x <- r ;; k" := (bind r (fun x => k))
  (at level 61, r at next level, right associativity).

(** ** The tile catalog as read from [data/desi-tiles.fits] *)

Module Fits.
(** One row of the binary table, with the columns [__init__] reads. *)
Record row : Type := mkRow {
  TILEID : Z;
  RA : Q;
  DEC : Q;
  PASS : Z;
  IN_DESI : Z;
  EBV_MED : Q;
  AIRMASS : Q;
  EXPOSEFAC : Q;
  STAR_DENSITY : Q;
  PROGRAM : string;
  OBSCONDITIONS : Z;
  OBSTIME : Q;
  HA : Q
}.
End Fits.

(** ** [surveyPlan] *)

(** The object keeps one numpy column per attribute ([self.tileID],
    [self.RA], ..., [self.status], [self.priority]), all of them compressed
    with the same mask [InDESI==1] and so of one length.  Index [i] of all
    the columns is kept here as one record. *)
Record Tile : Type := mkTile {
  tileID : Z;
  RA : Q;
  DEC : Q;
  Pass : Z;
  Ebmv : Q;
  maxExpLen : Q;
  starDensity : Q;
  program : string;
  obsconds : Z;
  LSTmin : Q;
  LSTmax : Q;
  status : Z;
  priority : Z
}.

(** The instance attributes.  [LST_dark_begin] and [LST_dark_end] do not
    exist on a fresh object: the last branch of [getDarkTimes] creates
    them. *)
Record surveyPlan : Type := mkPlan {
  tiles : list Tile;
  moonUp : string;
  LST_dark1_begin : Q;
  LST_dark1_end : Q;
  LST_dark2_begin : Q;
  LST_dark2_end : Q;
  LST_dark_begin : option Q;
  LST_dark_end : option Q
}.

Definition set_tiles (v : list Tile) (s : surveyPlan) : surveyPlan :=
  mkPlan v (moonUp s) (LST_dark1_begin s) (LST_dark1_end s)
         (LST_dark2_begin s) (LST_dark2_end s) (LST_dark_begin s) (LST_dark_end s).

Definition set_moonUp (v : string) (s : surveyPlan) : surveyPlan :=
  mkPlan (tiles s) v (LST_dark1_begin s) (LST_dark1_end s)
         (LST_dark2_begin s) (LST_dark2_end s) (LST_dark_begin s) (LST_dark_end s).

Definition set_LST_dark1_begin (v : Q) (s : surveyPlan) : surveyPlan :=
  mkPlan (tiles s) (moonUp s) v (LST_dark1_end s)
         (LST_dark2_begin s) (LST_dark2_end s) (LST_dark_begin s) (LST_dark_end s).

Definition set_LST_dark1_end (v : Q) (s : surveyPlan) : surveyPlan :=
  mkPlan (tiles s) (moonUp s) (LST_dark1_begin s) v
         (LST_dark2_begin s) (LST_dark2_end s) (LST_dark_begin s) (LST_dark_end s).

Definition set_LST_dark2_begin (v : Q) (s : surveyPlan) : surveyPlan :=
  mkPlan (tiles s) (moonUp s) (LST_dark1_begin s) (LST_dark1_end s)
         v (LST_dark2_end s) (LST_dark_begin s) (LST_dark_end s).

Definition set_LST_dark2_end (v : Q) (s : surveyPlan) : surveyPlan :=
  mkPlan (tiles s) (moonUp s) (LST_dark1_begin s) (LST_dark1_end s)
         (LST_dark2_begin s) v (LST_dark_begin s) (LST_dark_end s).

Definition set_LST_dark_begin (v : Q) (s : surveyPlan) : surveyPlan :=
  mkPlan (tiles s) (moonUp s) (LST_dark1_begin s) (LST_dark1_end s)
         (LST_dark2_begin s) (LST_dark2_end s) (Some v) (LST_dark_end s).

Definition set_LST_dark_end (v : Q) (s : surveyPlan) : surveyPlan :=
  mkPlan (tiles s) (moonUp s) (LST_dark1_begin s) (LST_dark1_end s)
         (LST_dark2_begin s) (LST_dark2_end s) (LST_dark_begin s) (Some v).

(** *** [__init__] *)

(** The body of the two loops over [self.LSTmin] and [self.LSTmax]:
    [if x < 0.0: x += 360.0  elif x > 360.0: x -= 360.0]. *)
Definition wrap_lst (x : Q) : Q :=
  if Qltb x 0 then x + 360
  else if Qltb 360 x then x - 360
  else x.

(** Priority as a function of declination only. *)
Definition priority_of_dec (dec : Q) : Z :=
  if Qleb dec (-15) then 1%Z
  else if Qltb (-15) dec && Qleb dec 0 then 2%Z
  else if Qltb 0 dec && Qleb dec 15 then 3%Z
  else if Qltb 15 dec && Qleb dec 30 then 4%Z
  else if Qltb 30 dec && Qleb dec 45 then 5%Z
  else if Qltb 45 dec && Qleb dec 60 then 6%Z
  else if Qltb 60 dec && Qltb dec 75 then 7%Z
  else 8%Z.

(** The retained tile made from one catalog row. *)
Definition tile_of_row (r : Fits.row) : Tile :=
  let LST := Fits.RA r + Fits.HA r in
  {| tileID := Fits.TILEID r;
     RA := Fits.RA r;
     DEC := Fits.DEC r;
     Pass := Fits.PASS r;
     Ebmv := Fits.EBV_MED r;
     maxExpLen := 2 * Fits.OBSTIME r;
     starDensity := Fits.STAR_DENSITY r;
     program := Fits.PROGRAM r;
     obsconds := Fits.OBSCONDITIONS r;
     LSTmin := wrap_lst (LST - 15);
     LSTmax := wrap_lst (LST + 15);
     status := 0%Z;
     priority := priority_of_dec (Fits.DEC r) |}.

(** [surveyPlan.__init__], from the parsed table [tiledata]. *)
Definition surveyPlan_init (tiledata : list Fits.row) : surveyPlan :=
  {| tiles := map tile_of_row (filter (fun r => (Fits.IN_DESI r =? 1)%Z) tiledata);
     moonUp := "BRIGHT";
     LST_dark1_begin := -1;
     LST_dark1_end := -1;
     LST_dark2_begin := -1;
     LST_dark2_end := -1;
     LST_dark_begin := None;
     LST_dark_end := None |}.

(** *** [isItDark] *)

Definition isItDark (self : surveyPlan) (lst : Q) : string :=
  if (Qltb 0 (LST_dark1_begin self) && Qltb (LST_dark1_begin self) lst &&
      Qltb 0 (LST_dark1_end self) && Qltb lst (LST_dark1_end self))
     || (Qltb 0 (LST_dark2_begin self) && Qltb (LST_dark2_begin self) lst &&
         Qltb 0 (LST_dark2_end self) && Qltb lst (LST_dark2_end self))
  then "DARK"
  else moonUp self.

(** *** Night statistics *)

(** The [day_stats] dictionary, with the keys the planner reads. *)
Record DayStats : Type := mkDayStats {
  MJDmoonrise : Q;
  MJDmoonset : Q;
  MJDetwi : Q;
  MJDmtwi : Q;
  MJDmidnight : Q;
  MoonRA : Q;
  MoonDEC : Q;
  MoonFrac : Q;
  dirName : string
}.

(** One row of the plan list: the tuple appended to [planList0]. *)
Definition PlanRow : Type :=
  (Z * Q * Q * Q * Q * Q * Q * Z * Z * string * Z)%type.

Definition plan_row (t : Tile) : PlanRow :=
  (tileID t, RA t, DEC t, Ebmv t, LSTmin t, LSTmax t,
   maxExpLen t, priority t, status t, program t, obsconds t).

(** [itemgetter(7)]. *)
Definition itemgetter7 (r : PlanRow) : Z :=
  match r with
  | (_, _, _, _, _, _, _, p, _, _, _) => p
  end.

(** [sorted(planList0, key=itemgetter(7), reverse=True)]: a stable sort,
    largest key first, equal keys in their original order. *)
Fixpoint insert_desc (x : PlanRow) (l : list PlanRow) : list PlanRow :=
  match l with
  | [] => [x]
  | y :: l' =>
      if (itemgetter7 x <? itemgetter7 y)%Z then y :: insert_desc x l'
      else x :: y :: l'
  end.

Definition sorted_desc (l : list PlanRow) : list PlanRow :=
  fold_right insert_desc [] l.

(** [self.status[i] = st] at one index [i]. *)
Definition with_status (st : Z) (t : Tile) : Tile :=
  mkTile (tileID t) (RA t) (DEC t) (Pass t) (Ebmv t) (maxExpLen t)
         (starDensity t) (program t) (obsconds t) (LSTmin t) (LSTmax t)
         st (priority t).

(** The body of the status-update loop at the head of [afternoonPlan]:
    [j = np.where(self.tileID == id); self.status[j] = st] writes [st] at
    every index whose id matches, and nowhere when none does. *)
Definition set_status (id st : Z) (ts : list Tile) : list Tile :=
  map (fun t => if (tileID t =? id)%Z then with_status st t else t) ts.

(** [tiles_observed] is a table with columns [TILEID] and [STATUS]. *)
Definition update_status (tiles_observed : list (Z * Z)) (ts : list Tile) : list Tile :=
  fold_left (fun acc e => set_status (fst e) (snd e) acc) tiles_observed ts.

(** The test [afternoonPlan] applies to index [i] before appending it. *)
Definition eligible (self : surveyPlan) (t : Tile) : bool :=
  (status t <? 2)%Z &&
  ((String.eqb (isItDark self (LSTmin t)) "DARK" &&
    String.eqb (isItDark self (LSTmax t)) "DARK" &&
    String.eqb (program t) "DARK")
   || ((negb (String.eqb (isItDark self (LSTmin t)) "DARK") ||
        negb (String.eqb (isItDark self (LSTmax t)) "DARK")) &&
       negb (String.eqb (program t) "DARK"))).

Section Planner.

(** [surveysim.utils.mjd2lst] and [surveysim.utils.radec2altaz] are
    imported, not defined, by the module: the planner is parametric in
    them. *)
Variable mjd2lst : Q -> Q.
Variable radec2altaz : Q -> Q -> Q -> Q * Q.

(** *** [getDarkTimes] *)

Definition getDarkTimes (self : surveyPlan) (day_stats : DayStats) : surveyPlan :=
  let self := set_LST_dark2_begin (-1) self in
  let self := set_LST_dark2_end (-1) self in
  let self :=
    if Qltb 0 (MJDmoonrise day_stats) && Qltb 0 (MJDmoonrise day_stats) then
      if Qltb (MJDmoonrise day_stats) (MJDetwi day_stats) then
        if Qltb (MJDmoonset day_stats) (MJDmtwi day_stats) then
          let self := set_LST_dark1_begin (mjd2lst (MJDmoonset day_stats)) self in
          set_LST_dark1_end (mjd2lst (MJDmtwi day_stats)) self
        else
          let self := set_LST_dark1_begin (-1) self in
          set_LST_dark1_end (-1) self
      else
        let self := set_LST_dark1_begin (mjd2lst (MJDetwi day_stats)) self in
        if Qltb (MJDmoonrise day_stats) (MJDmtwi day_stats) then
          let self := set_LST_dark1_end (mjd2lst (MJDmoonrise day_stats)) self in
          if Qltb (MJDmoonset day_stats) (MJDmtwi day_stats) then
            let self := set_LST_dark2_begin (mjd2lst (MJDmoonset day_stats)) self in
            set_LST_dark2_end (mjd2lst (MJDmtwi day_stats)) self
          else self
        else
          set_LST_dark1_end (mjd2lst (MJDmtwi day_stats)) self
    else if Qltb 0 (MJDmoonrise day_stats) && Qltb (MJDmoonrise day_stats) 0 then
      if Qltb (MJDmoonrise day_stats) (MJDetwi day_stats) then
        let self := set_LST_dark1_begin (-1) self in
        set_LST_dark1_end (-1) self
      else
        let self := set_LST_dark1_begin (MJDetwi day_stats) self in
        set_LST_dark1_end (mjd2lst (MJDmoonrise day_stats)) self
    else if Qltb (MJDmoonrise day_stats) 0 && Qltb 0 (MJDmoonrise day_stats) then
      if Qltb 0 (MJDmoonset day_stats) &&
         Qltb (MJDmoonset day_stats) (MJDmtwi day_stats) then
        let self := set_LST_dark1_begin (mjd2lst (MJDmoonset day_stats)) self in
        set_LST_dark1_end (mjd2lst (MJDmtwi day_stats)) self
      else
        let self := set_LST_dark1_begin (-1) self in
        set_LST_dark1_end (-1) self
    else
      let self := set_LST_dark_begin (mjd2lst (MJDetwi day_stats)) self in
      set_LST_dark_end (mjd2lst (MJDmtwi day_stats)) self
  in
  let '(alt, az) :=
    radec2altaz (MoonRA day_stats) (MoonDEC day_stats)
                (mjd2lst (MJDmidnight day_stats)) in
  if Qltb (MoonFrac day_stats) (2 # 10) || Qltb (alt * MoonFrac day_stats) 12
  then set_moonUp "GREY" self
  else set_moonUp "BRIGHT" self.

(** *** [afternoonPlan] *)

(** The state when the selection loop runs: statuses updated, dark
    times set. *)
Definition night_state (self : surveyPlan) (day_stats : DayStats)
           (tiles_observed : list (Z * Z)) : surveyPlan :=
  getDarkTimes (set_tiles (update_status tiles_observed (tiles self)) self) day_stats.

(** [planList0]. *)
Definition planList0 (self : surveyPlan) : list PlanRow :=
  map plan_row (filter (eligible self) (tiles self)).

(** What one call leaves behind and returns.  [out_self] is the object
    after the status update and [getDarkTimes]; [planList] is the sorted
    list of tuples of line 184.  [np.rec.array(planList, ...)] reads
    [planList[0]], so on an empty list the call ends in [IndexError], with
    the object already changed; otherwise it returns the number of rows
    and the file name.  The FITS file itself is outside the model. *)
Record PlanOutput : Type := mkOut {
  out_self : surveyPlan;
  planList : list PlanRow;
  returned : result (nat * string)
}.

Definition afternoonPlan (self : surveyPlan) (day_stats : DayStats)
           (tiles_observed : list (Z * Z)) : PlanOutput :=
  let self := night_state self day_stats tiles_observed in
  let plan := sorted_desc (planList0 self) in
  {| out_self := self;
     planList := plan;
     returned :=
       match plan with
       | [] => Raise IndexError
       | _ :: _ =>
           Ok (List.length plan, ("obsplan" ++ dirName day_stats ++ ".fits")%string)
       end |}.

(** The driver calls [afternoonPlan] once per night, each time with
    that night's statistics and observation log. *)
Fixpoint run_nights (self : surveyPlan)
         (nights : list (DayStats * list (Z * Z))) : surveyPlan :=
  match nights with
  | [] => self
  | (day_stats, tiles_observed) :: rest =>
      run_nights (out_self (afternoonPlan self day_stats tiles_observed)) rest
  end.

(** The states a planner object goes through: built by [__init__],
    then changed only by its own methods. *)
Inductive reachable : surveyPlan -> Prop :=
| reach_init : forall tiledata, reachable (surveyPlan_init tiledata)
| reach_getDarkTimes : forall s d,
    reachable s -> reachable (getDarkTimes s d)
| reach_afternoonPlan : forall s d log,
    reachable s -> reachable (out_self (afternoonPlan s d log)).

End Planner.

(** ** [Weather] *)

(** One row of the weather table. *)
Record Row : Type := mkWRow {
  mjd : Q;
  open : bool;
  seeing : Q;
  transparency : Q
}.

(** Dates are day ordinals, so [(stop_date - start_date).days] is a
    subtraction in [Z]. *)
Record Weather : Type := mkWeather {
  _table : list Row;
  start_date : Z;
  stop_date : Z;
  num_nights : Z;
  steps_per_day : Z;
  log_warn : list string
}.

(** The argument of [get]: an [astropy.time.Time] holding one time or an
    array of times, given by its [.mjd]. *)
Inductive TimeArg : Type :=
| TScalar (t : Q)
| TArray (ts : list Q).

(** The value of [get]: one row, or a table of rows. *)
Inductive TableSlice : Type :=
| SRow (r : Row)
| SRows (rs : list Row).

(** [tab[o]] for an integer [o]: Python counts a negative index from the
    end and raises [IndexError] outside [-len, len). *)
Definition py_index (tab : list Row) (o : Z) : result Row :=
  let n := Z.of_nat (List.length tab) in
  let k := if (o <? 0)%Z then (o + n)%Z else o in
  if ((0 <=? k) && (k <? n))%Z then
    match nth_error tab (Z.to_nat k) with
    | Some r => Ok r
    | None => Raise IndexError
    end
  else Raise IndexError.

(** [tab[offsets]] for an integer array: the rows in the order asked. *)
Fixpoint py_take (tab : list Row) (offsets : list Z) : result (list Row) :=
  match offsets with
  | [] => Ok []
  | o :: rest =>
      r <- py_index tab o ;;
      rs <- py_take tab rest ;;
      Ok (r :: rs)
  end.

(** [np.floor((t - mjd0) * steps_per_day + 0.5).astype(int)]. *)
Definition offset_of (mjd0 : Q) (steps : Z) (t : Q) : Z :=
  Qfloor ((t - mjd0) * inject_Z steps + (1 # 2)).

Definition offsets_of (mjd0 : Q) (steps : Z) (time : TimeArg) : list Z :=
  match time with
  | TScalar t => [offset_of mjd0 steps t]
  | TArray ts => map (offset_of mjd0 steps) ts
  end.

(** [np.any(offset < 0) or np.any(offset > len(self._table))]. *)
Definition beyond_range (len : Z) (offset : list Z) : bool :=
  existsb (fun o => (o <? 0)%Z) offset || existsb (fun o => (len <? o)%Z) offset.

(** [Weather.get]. *)
Definition get (self : Weather) (time : TimeArg) : result TableSlice :=
  match _table self with
  | [] => Raise IndexError
  | r0 :: _ =>
      let len := Z.of_nat (List.length (_table self)) in
      let offset := offsets_of (mjd r0) (steps_per_day self) time in
      if beyond_range len offset then Raise ValueError
      else
        match time with
        | TScalar t =>
            r <- py_index (_table self) (offset_of (mjd r0) (steps_per_day self) t) ;;
            Ok (SRow r)
        | TArray _ =>
            rs <- py_take (_table self) offset ;;
            Ok (SRows rs)
        end
  end.

(** Python 3 [round] to an integer: ties go to the even neighbour. *)
Definition py_round (x : Q) : Z :=
  let f := Qfloor x in
  let d := x - inject_Z f in
  if Qltb d (1 # 2) then f
  else if Qltb (1 # 2) d then (f + 1)%Z
  else if Z.even f then f else (f + 1)%Z.

(** Whether the double nearest to [q] is infinite: rounding to nearest
    overflows from [2^1024 - 2^970] on. *)
Definition float_overflows (q : Q) : bool :=
  Qleb (inject_Z (2 ^ 1024 - 2 ^ 970)) (Qabs q).

(** [np.allclose(a, b)] with the default [rtol=1e-05], [atol=1e-08]. *)
Definition np_allclose (a b : Q) : bool :=
  Qleb (Qabs (a - b)) ((1 # 100000000) + (1 # 100000) * Qabs b).

(** [np.arange(n)]: empty when [n <= 0]. *)
Definition np_arange (n : Z) : list Z :=
  map Z.of_nat (seq 0 (Z.to_nat n)).

(** [np.ones(n, bool)]: a negative dimension is a [ValueError]. *)
Definition np_ones (n : Z) : result (list bool) :=
  if (n <? 0)%Z then Raise ValueError
  else Ok (repeat true (Z.to_nat n)).

(** [col[lo:hi] = v] on a column whose first index is [k]. *)
Fixpoint set_slice_from (k lo hi : Z) (v : bool) (col : list bool) : list bool :=
  match col with
  | [] => []
  | x :: col' =>
      (if ((lo <=? k) && (k <? hi))%Z then v else x)
        :: set_slice_from (k + 1) lo hi v col'
  end.

Definition set_slice (lo hi : Z) (v : bool) (col : list bool) : list bool :=
  set_slice_from 0 lo hi v col.

Section WeatherInit.

(** What the constructor takes from other packages: the configured
    survey dates, local noon of a date as an MJD, the calendar month of
    an MJD, the twelve monthly dome-closed probabilities, the random
    generator and the two atmospheric samplers (each gives its samples
    by index and the generator it leaves). *)
Variable RandomState : Type.
Variable config_first_day config_last_day : Z.
Variable local_noon_on_date : Z -> Q.
Variable month_of_mjd : Q -> Z.
Variable dome_closed_probabilities : list Q.
Variable fresh_RandomState : RandomState.
Variable uniform : RandomState -> Q * RandomState.
Variable sample_seeing : Z -> Q -> RandomState -> (nat -> Q) * RandomState.
Variable sample_transp : Z -> Q -> RandomState -> (nat -> Q) * RandomState.

(** The loop [for i in range(num_nights)] that closes whole nights. *)
Fixpoint dome_loop (t0 : Q) (steps : Z) (nights : list Z)
         (col : list bool) (gen : RandomState) : list bool * RandomState :=
  match nights with
  | [] => (col, gen)
  | i :: rest =>
      let ij := (i * steps)%Z in
      let month := month_of_mjd (t0 + inject_Z ij / inject_Z steps) in
      let '(u, gen) := uniform gen in
      let col :=
        if Qltb u (nth (Z.to_nat (month - 1)) dome_closed_probabilities 0)
        then set_slice ij (ij + steps) false col
        else col in
      dome_loop t0 steps rest col gen
  end.

(** [Weather.__init__] with [restore=None].  [time_step] is the step in
    days.  A zero step, or one so small that the double quotient
    [1 day / time_step] is infinite, makes [round] raise
    [OverflowError]. *)
Definition Weather_init (start_date stop_date : option Z) (time_step : Q)
           (gen : option RandomState) : result Weather :=
  let '(warn, gen) :=
    match gen with
    | None => (["Will generate unreproducible random numbers."%string], fresh_RandomState)
    | Some g => ([], g)
    end in
  let start_date := match start_date with None => config_first_day | Some d => d end in
  let stop_date := match stop_date with None => config_last_day | Some d => d end in
  let num_nights := (stop_date - start_date)%Z in
  if (num_nights <=? 0)%Z then Raise ValueError
  else if Qeq_bool time_step 0 || float_overflows (1 / time_step)
       then Raise OverflowError
  else
    let steps_per_day := py_round (1 / time_step) in
    if negb (np_allclose (inject_Z steps_per_day * time_step) 1) then Raise ValueError
    else
      let num_rows := (num_nights * steps_per_day)%Z in
      let t0 := local_noon_on_date start_date in
      let times := map (fun k => t0 + inject_Z k / inject_Z steps_per_day)
                       (np_arange num_rows) in
      col <- np_ones num_rows ;;
      let '(col, gen) := dome_loop t0 steps_per_day (np_arange num_nights) col gen in
      let dt_sec := (24 * 3600) / inject_Z steps_per_day in
      let '(see, gen) := sample_seeing num_rows dt_sec gen in
      let '(tr, gen) := sample_transp num_rows dt_sec gen in
      Ok {| _table :=
              map (fun k => {| mjd := nth k times 0;
                               open := nth k col true;
                               seeing := see k;
                               transparency := tr k |})
                  (seq 0 (Z.to_nat num_rows));
            start_date := start_date;
            stop_date := stop_date;
            num_nights := num_nights;
            steps_per_day := steps_per_day;
            log_warn := warn |}.

End WeatherInit.

(** ** Properties named in the statements below *)

(** Index by index, no status is lower in [after] than in [before]. *)
Definition status_monotone (before after : list Tile) : Prop :=
  forall i t t',
    nth_error before i = Some t ->
    nth_error after i = Some t' ->
    (status t <= status t')%Z.

(** A log entry that lowers no tile of the catalog it is applied to. *)
Definition entry_raises (ts : list Tile) (e : Z * Z) : Prop :=
  forall t, In t ts -> tileID t = fst e -> (status t <= snd e)%Z.

(** Every entry lowers nothing at the moment the loop reaches it. *)
Fixpoint log_raises (ts : list Tile) (log : list (Z * Z)) : Prop :=
  match log with
  | [] => True
  | e :: rest => entry_raises ts e /\ log_raises (set_status (fst e) (snd e) ts) rest
  end.

(** The same, night after night, for the logs handed to [afternoonPlan]. *)
Fixpoint nights_raise (mjd2lst : Q -> Q) (radec2altaz : Q -> Q -> Q -> Q * Q)
         (self : surveyPlan) (nights : list (DayStats * list (Z * Z))) : Prop :=
  match nights with
  | [] => True
  | (d, log) :: rest =>
      log_raises (tiles self) log /\
      nights_raise mjd2lst radec2altaz
                   (out_self (afternoonPlan mjd2lst radec2altaz self d log)) rest
  end.

(** The status of the last pair of [log] with id [id], if one has it. *)
Definition last_status (id : Z) (log : list (Z * Z)) : option Z :=
  fold_left (fun acc e => if (fst e =? id)%Z then Some (snd e) else acc) log None.

(** [lst] lies strictly inside the window [(b, e)], whose two bounds are
    strictly positive. *)
Definition inside_window (b e lst : Q) : Prop :=
  0 < b /\ b < lst /\ 0 < e /\ lst < e.

(** The normalised range [0, 360), and the range with its upper end. *)
Definition in_0_360 (x : Q) : Prop := 0 <= x /\ x < 360.
Definition in_0_360_closed (x : Q) : Prop := 0 <= x /\ x <= 360.




(** ** Sample data *)

(** A stand-in for [mjd2lst]: the fraction of the day, in degrees. *)
Definition sample_mjd2lst (m : Q) : Q := Qred (360 * (m - inject_Z (Qfloor m))).

(** A stand-in for [radec2altaz]. *)
Definition sample_radec2altaz (ra dec lst : Q) : Q * Q := (dec, lst - ra).

(** A night without moonrise and without moonset. *)
Definition no_moon_night : DayStats :=
  {| MJDmoonrise := -1; MJDmoonset := -1;
     MJDetwi := 57000 + (1 # 10); MJDmtwi := 57000 + (1 # 2);
     MJDmidnight := 57000 + (3 # 10);
     MoonRA := 10; MoonDEC := 20; MoonFrac := 1 # 2;
     dirName := "20150609" |}.

(** A night on which the moon sets, before morning twilight, but does
    not rise. *)
Definition moonset_only_night : DayStats :=
  {| MJDmoonrise := -1; MJDmoonset := 57000 + (2 # 10);
     MJDetwi := 57000 + (1 # 10); MJDmtwi := 57000 + (1 # 2);
     MJDmidnight := 57000 + (3 # 10);
     MoonRA := 10; MoonDEC := 20; MoonFrac := 1 # 2;
     dirName := "20150610" |}.

(** A night on which the moon rises after morning twilight, and evening
    twilight falls where the stand-in LST is exactly zero. *)
Definition late_moonrise_night : DayStats :=
  {| MJDmoonrise := 57000 + (1 # 2); MJDmoonset := 57000 + (9 # 10);
     MJDetwi := 57000; MJDmtwi := 57000 + (4 # 10);
     MJDmidnight := 57000 + (2 # 10);
     MoonRA := 10; MoonDEC := 20; MoonFrac := 1 # 2;
     dirName := "20150611" |}.

(** A night on which the moon rises after morning twilight: dark from
    evening twilight (36 degrees with the stand-in) to morning twilight
    (144 degrees). *)
Definition dark_night : DayStats :=
  {| MJDmoonrise := 57000 + (1 # 2); MJDmoonset := 57000 + (9 # 10);
     MJDetwi := 57000 + (1 # 10); MJDmtwi := 57000 + (4 # 10);
     MJDmidnight := 57000 + (2 # 10);
     MoonRA := 10; MoonDEC := 20; MoonFrac := 1 # 2;
     dirName := "20150612" |}.

(** A catalog row for a tile in the survey. *)
Definition sample_row (id : Z) (ra ha : Q) (prog : string) : Fits.row :=
  {| Fits.TILEID := id; Fits.RA := ra; Fits.DEC := 10; Fits.PASS := 1;
     Fits.IN_DESI := 1; Fits.EBV_MED := 0; Fits.AIRMASS := 1;
     Fits.EXPOSEFAC := 1; Fits.STAR_DENSITY := 0; Fits.PROGRAM := prog;
     Fits.OBSCONDITIONS := 1; Fits.OBSTIME := 1000; Fits.HA := ha |}.

Definition sample_catalog : list Fits.row :=
  [sample_row 1 100 0 "DARK"; sample_row 2 345 0 "BRIGHT"; sample_row 3 50 0 "DARK"].

Definition sample_planner : surveyPlan := surveyPlan_init sample_catalog.

(** Stand-ins for what the [Weather] constructor imports: a generator
    that is a counter, a dome closed one draw in four in every month. *)
Definition sample_Weather_init : option Z -> option Z -> Q -> option nat -> result Weather :=
  Weather_init nat 57000%Z 57365%Z
               (fun d => inject_Z d + (1 # 2))
               (fun _ => 1%Z)
               (repeat (1 # 4) 12)
               0%nat
               (fun g => (inject_Z (Z.of_nat (g mod 4)) / 4, S g))
               (fun _ _ g => (fun _ => 1, S g))
               (fun _ _ g => (fun _ => 9 # 10, S g)).

(** A weather table of one night in four steps, from noon to noon. *)
Definition small_weather : Weather :=
  {| _table := [ mkWRow (57000 + (1 # 2)) true 1 1;
                 mkWRow (57000 + (3 # 4)) true (11 # 10) (9 # 10);
                 mkWRow 57001 true (12 # 10) (8 # 10);
                 mkWRow (57001 + (1 # 4)) true 1 1 ];
     start_date := 57000;
     stop_date := 57001;
     num_nights := 1;
     steps_per_day := 4;
     log_warn := [] |}.

(** ** Further named properties and sample data *)

(** The four bounds [isItDark] reads. *)
Definition dark_windows (s : surveyPlan) : Q * Q * Q * Q :=
  (LST_dark1_begin s, LST_dark1_end s, LST_dark2_begin s, LST_dark2_end s).

(** A plan list in the order [sorted(..., reverse=True)] promises: no
    row has a larger key than a row before it. *)
Definition priority_descending (l : list PlanRow) : Prop :=
  forall i j ri rj,
    (i <= j)%nat ->
    nth_error l i = Some ri ->
    nth_error l j = Some rj ->
    (itemgetter7 rj <= itemgetter7 ri)%Z.

(** The rows of a weather table that belong to one night. *)
Definition same_night (steps : Z) (k k' : nat) : Prop :=
  (Z.of_nat k / steps = Z.of_nat k' / steps)%Z.

(** A night on which the moon is up at evening twilight and does not
    set: the moonset entry holds the sentinel. *)
Definition moon_up_all_night : DayStats :=
  {| MJDmoonrise := 57000 - (1 # 10); MJDmoonset := -1;
     MJDetwi := 57000 + (1 # 10); MJDmtwi := 57000 + (4 # 10);
     MJDmidnight := 57000 + (2 # 10);
     MoonRA := 10; MoonDEC := 20; MoonFrac := 9 # 10;
     dirName := "20150613" |}.

(** A night on which the moon rises during the night and has set before
    evening twilight of the same MJD day. *)
Definition two_window_night : DayStats :=
  {| MJDmoonrise := 57000 + (2 # 10); MJDmoonset := 57000 + (3 # 10);
     MJDetwi := 57000 + (1 # 10); MJDmtwi := 57000 + (4 # 10);
     MJDmidnight := 57000 + (25 # 100);
     MoonRA := 10; MoonDEC := 20; MoonFrac := 9 # 10;
     dirName := "20150614" |}.


(** A night that straddles LST 0 with the stand-in conversion: evening
    twilight at 324 degrees, morning twilight at 108 degrees, the moon
    rising after it. *)
Definition straddling_night : DayStats :=
  {| MJDmoonrise := 57001 + (1 # 2); MJDmoonset := 57001 + (9 # 10);
     MJDetwi := 57000 + (9 # 10); MJDmtwi := 57001 + (3 # 10);
     MJDmidnight := 57001 + (1 # 10);
     MoonRA := 10; MoonDEC := 20; MoonFrac := 1 # 2;
     dirName := "20150615" |}.

Arguments getDarkTimes mjd2lst radec2altaz self day_stats : simpl never.

(** ** Facts about the comparisons *)

Lemma Qltb_lt (x y : Q) : Qltb x y = true <-> x < y.
Proof.
  unfold Qltb. rewrite negb_true_iff.
  split; intros H.
  - apply Qnot_le_lt. intros Hle. apply Qle_bool_iff in Hle. congruence.
  - destruct (Qle_bool y x) eqn:E; [|reflexivity].
    apply Qle_bool_iff in E. lra.
Qed.

Lemma Qltb_ge (x y : Q) : Qltb x y = false <-> y <= x.
Proof.
  unfold Qltb. rewrite negb_false_iff. apply Qle_bool_iff.
Qed.

Lemma Qleb_le (x y : Q) : Qleb x y = true <-> x <= y.
Proof. apply Qle_bool_iff. Qed.

Lemma Qleb_gt (x y : Q) : Qleb x y = false <-> y < x.
Proof.
  unfold Qleb. split; intros H.
  - apply Qnot_le_lt. intros Hle. apply Qle_bool_iff in Hle. congruence.
  - destruct (Qle_bool x y) eqn:E; [|reflexivity].
    apply Qle_bool_iff in E. lra.
Qed.

Lemma Qltb_spec (x y : Q) : BoolSpec (x < y) (y <= x) (Qltb x y).
Proof.
  destruct (Qltb x y) eqn:E; constructor.
  - now apply Qltb_lt.
  - now apply Qltb_ge.
Qed.

Lemma Qleb_spec (x y : Q) : BoolSpec (x <= y) (y < x) (Qleb x y).
Proof.
  destruct (Qleb x y) eqn:E; constructor.
  - now apply Qleb_le.
  - now apply Qleb_gt.
Qed.

(** ** [getDarkTimes] *)

Ltac split_ifs :=
  repeat match goal with
         | |- context [if ?b then _ else _] => destruct b
         end.

Section DarkTimes.

Variable mjd2lst : Q -> Q.
Variable radec2altaz : Q -> Q -> Q -> Q * Q.

Lemma getDarkTimes_tiles s d :
  tiles (getDarkTimes mjd2lst radec2altaz s d) = tiles s.
Proof.
  unfold getDarkTimes.
  destruct (radec2altaz _ _ _) as [alt az].
  split_ifs; reflexivity.
Qed.

Lemma getDarkTimes_moonUp s d :
  moonUp (getDarkTimes mjd2lst radec2altaz s d) = "GREY"%string \/
  moonUp (getDarkTimes mjd2lst radec2altaz s d) = "BRIGHT"%string.
Proof.
  unfold getDarkTimes.
  destruct (radec2altaz _ _ _) as [alt az].
  destruct (_ || _); [left | right]; reflexivity.
Qed.

(** When the moonrise entry is not positive, none of the three tests on
    it succeeds and the last branch runs: it writes the two attributes
    [LST_dark_begin] and [LST_dark_end], and the first window keeps the
    bounds it had before the call. *)
Lemma getDarkTimes_moonrise_not_positive s d :
  MJDmoonrise d <= 0 ->
  let s' := getDarkTimes mjd2lst radec2altaz s d in
  LST_dark1_begin s' = LST_dark1_begin s /\
  LST_dark1_end s' = LST_dark1_end s /\
  LST_dark2_begin s' = -1 /\
  LST_dark2_end s' = -1 /\
  LST_dark_begin s' = Some (mjd2lst (MJDetwi d)) /\
  LST_dark_end s' = Some (mjd2lst (MJDmtwi d)).
Proof.
  intros H. unfold getDarkTimes.
  assert (E : Qltb 0 (MJDmoonrise d) = false) by now apply Qltb_ge.
  rewrite E. cbn [andb].
  rewrite andb_false_r.
  destruct (radec2altaz _ _ _) as [alt az].
  destruct (_ || _); cbn; repeat split; reflexivity.
Qed.

Lemma isItDark_no_window s lst :
  LST_dark1_begin s = -1 -> LST_dark2_begin s = -1 ->
  isItDark s lst = moonUp s.
Proof.
  intros H1 H2. unfold isItDark. rewrite H1, H2. reflexivity.
Qed.

End DarkTimes.

(** C1, evaluated on the code.  A fresh planner is given a night on
    which the moon neither rises nor sets ([MJDmoonrise = MJDmoonset =
    -1]).  After [getDarkTimes] the first window still holds the sentinel
    [-1.0] at both ends: the twilight bounds went to the attributes
    [LST_dark_begin] and [LST_dark_end], which [isItDark] never reads, so
    no LST of that night is DARK.  With the stand-in conversion the
    evening-twilight LST is 36 degrees, not the sentinel. *)
Theorem getDarkTimes_no_moon_dark1_not_set :
  forall (mjd2lst : Q -> Q) (radec2altaz : Q -> Q -> Q -> Q * Q)
         (tiledata : list Fits.row),
    let s := getDarkTimes mjd2lst radec2altaz (surveyPlan_init tiledata) no_moon_night in
    LST_dark1_begin s = -1 /\
    LST_dark1_end s = -1 /\
    LST_dark_begin s = Some (mjd2lst (MJDetwi no_moon_night)) /\
    LST_dark_end s = Some (mjd2lst (MJDmtwi no_moon_night)) /\
    (forall lst, isItDark s lst <> "DARK"%string) /\
    sample_mjd2lst (MJDetwi no_moon_night) = 36 /\
    ~ LST_dark1_begin
        (getDarkTimes sample_mjd2lst sample_radec2altaz
                      (surveyPlan_init tiledata) no_moon_night)
      == sample_mjd2lst (MJDetwi no_moon_night).
Proof.
  intros mjd2lst radec2altaz tiledata s.
  assert (Hrise : MJDmoonrise no_moon_night <= 0) by (cbn; lra).
  destruct (getDarkTimes_moonrise_not_positive mjd2lst radec2altaz
              (surveyPlan_init tiledata) no_moon_night Hrise)
    as (Hb & He & Hb2 & He2 & Hdb & Hde).
  fold s in Hb, He, Hb2, He2, Hdb, Hde.
  cbn in Hb, He.
  repeat split; try assumption.
  - intros lst. rewrite isItDark_no_window by assumption.
    destruct (getDarkTimes_moonUp mjd2lst radec2altaz (surveyPlan_init tiledata)
                no_moon_night) as [E | E];
      fold s in E; rewrite E; discriminate.
  - destruct (getDarkTimes_moonrise_not_positive sample_mjd2lst sample_radec2altaz
                (surveyPlan_init tiledata) no_moon_night Hrise) as (Hb' & _).
    cbn in Hb'. rewrite Hb'.
    intros H. vm_compute in H. discriminate.
Qed.

(** C2, evaluated on the code.  A fresh planner is given a night on
    which the moon does not rise ([MJDmoonrise = -1]) and sets before
    morning twilight.  The test of the moon-sets-only branch reads
    [MJDmoonrise] twice and never succeeds, so the last branch runs
    instead: the first window keeps the sentinel at both ends and no LST
    of the night is DARK, where the moonset LST (72 degrees with the
    stand-in conversion) was to open the window. *)
Theorem getDarkTimes_moonset_only_dark1_not_set :
  forall (mjd2lst : Q -> Q) (radec2altaz : Q -> Q -> Q -> Q * Q)
         (tiledata : list Fits.row),
    let s := getDarkTimes mjd2lst radec2altaz (surveyPlan_init tiledata)
                          moonset_only_night in
    MJDmoonrise moonset_only_night < 0 /\
    0 < MJDmoonset moonset_only_night /\
    MJDmoonset moonset_only_night < MJDmtwi moonset_only_night /\
    LST_dark1_begin s = -1 /\
    LST_dark1_end s = -1 /\
    (forall lst, isItDark s lst <> "DARK"%string) /\
    sample_mjd2lst (MJDmoonset moonset_only_night) = 72 /\
    ~ LST_dark1_begin
        (getDarkTimes sample_mjd2lst sample_radec2altaz
                      (surveyPlan_init tiledata) moonset_only_night)
      == sample_mjd2lst (MJDmoonset moonset_only_night).
Proof.
  intros mjd2lst radec2altaz tiledata s.
  assert (Hrise : MJDmoonrise moonset_only_night <= 0) by (cbn; lra).
  destruct (getDarkTimes_moonrise_not_positive mjd2lst radec2altaz
              (surveyPlan_init tiledata) moonset_only_night Hrise)
    as (Hb & He & Hb2 & He2 & _).
  fold s in Hb, He, Hb2, He2.
  cbn in Hb, He.
  split; [cbn; lra|].
  split; [cbn; lra|].
  split; [cbn; lra|].
  repeat split; try assumption.
  - intros lst. rewrite isItDark_no_window by assumption.
    destruct (getDarkTimes_moonUp mjd2lst radec2altaz (surveyPlan_init tiledata)
                moonset_only_night) as [E | E];
      fold s in E; rewrite E; discriminate.
  - destruct (getDarkTimes_moonrise_not_positive sample_mjd2lst sample_radec2altaz
                (surveyPlan_init tiledata) moonset_only_night Hrise) as (Hb' & _).
    cbn in Hb'. rewrite Hb'.
    intros H. vm_compute in H. discriminate.
Qed.

(** ** The status update *)

Lemma tileID_with_status st t : tileID (with_status st t) = tileID t.
Proof. reflexivity. Qed.

Lemma status_with_status st t : status (with_status st t) = st.
Proof. reflexivity. Qed.

Lemma with_status_twice st st' t :
  with_status st (with_status st' t) = with_status st t.
Proof. reflexivity. Qed.

Lemma set_status_length id st ts :
  List.length (set_status id st ts) = List.length ts.
Proof. apply length_map. Qed.

Lemma set_status_nth id st ts i :
  nth_error (set_status id st ts) i =
  option_map (fun t => if (tileID t =? id)%Z then with_status st t else t)
             (nth_error ts i).
Proof. apply nth_error_map. Qed.

Lemma set_status_ids id st ts :
  map tileID (set_status id st ts) = map tileID ts.
Proof.
  unfold set_status. rewrite map_map. apply map_ext.
  intros t. destruct (tileID t =? id)%Z; reflexivity.
Qed.

Lemma set_status_unmatched id st ts :
  (forall t, In t ts -> tileID t <> id) -> set_status id st ts = ts.
Proof.
  intros H. unfold set_status.
  rewrite <- (map_id ts) at 2. apply map_ext_in.
  intros t Ht. destruct (Z.eqb_spec (tileID t) id) as [E | E].
  - exfalso. exact (H t Ht E).
  - reflexivity.
Qed.

Lemma update_status_snoc log e ts :
  update_status (log ++ [e]) ts = set_status (fst e) (snd e) (update_status log ts).
Proof. unfold update_status. rewrite fold_left_app. reflexivity. Qed.

Lemma update_status_app l1 l2 ts :
  update_status (l1 ++ l2) ts = update_status l2 (update_status l1 ts).
Proof. unfold update_status. apply fold_left_app. Qed.

Lemma update_status_length log ts :
  List.length (update_status log ts) = List.length ts.
Proof.
  revert ts. induction log as [| e log IH]; intros ts; [reflexivity|].
  cbn. fold (update_status log (set_status (fst e) (snd e) ts)).
  rewrite IH. apply set_status_length.
Qed.

Lemma update_status_ids log ts :
  map tileID (update_status log ts) = map tileID ts.
Proof.
  revert ts. induction log as [| e log IH]; intros ts; [reflexivity|].
  cbn. fold (update_status log (set_status (fst e) (snd e) ts)).
  rewrite IH. apply set_status_ids.
Qed.

Lemma last_status_snoc id log e :
  last_status id (log ++ [e]) =
  if (fst e =? id)%Z then Some (snd e) else last_status id log.
Proof. unfold last_status. rewrite fold_left_app. reflexivity. Qed.

(** The whole loop, index by index: the last pair for the id decides. *)
Lemma update_status_nth log ts i :
  nth_error (update_status log ts) i =
  option_map (fun t => match last_status (tileID t) log with
                       | Some st => with_status st t
                       | None => t
                       end)
             (nth_error ts i).
Proof.
  induction log as [| e log IH] using rev_ind.
  - cbn. destruct (nth_error ts i); reflexivity.
  - rewrite update_status_snoc, set_status_nth, IH.
    destruct (nth_error ts i) as [t |]; [|reflexivity].
    cbn [option_map]. f_equal.
    rewrite last_status_snoc.
    destruct (last_status (tileID t) log) as [st' |]; cbn [tileID with_status];
      rewrite (Z.eqb_sym (fst e)); destruct (tileID t =? fst e)%Z; reflexivity.
Qed.

(** C6.  One pair [(id, st)] writes [st] into the status of every tile
    whose id is [id], so that the tile then has status [st], and leaves
    the other tiles, and every other attribute, as they are; a pair whose
    id no tile has changes nothing and can be dropped from the log without
    changing the outcome (the loop is a total function: nothing is raised);
    and after a whole log each tile has the status of the last pair that
    names its id, or its old status when no pair does. *)
Theorem update_status_overwrites_ignores_last_wins :
  (forall id st ts i t,
      nth_error ts i = Some t ->
      exists t',
        nth_error (update_status [(id, st)] ts) i = Some t' /\
        status t' = (if (tileID t =? id)%Z then st else status t) /\
        t' = (if (tileID t =? id)%Z then with_status st t else t) /\
        with_status (status t) t' = t) /\
  (forall id st ts l1 l2,
      (forall t, In t ts -> tileID t <> id) ->
      update_status [(id, st)] ts = ts /\
      update_status (l1 ++ (id, st) :: l2) ts = update_status (l1 ++ l2) ts) /\
  (forall log ts i t,
      nth_error ts i = Some t ->
      exists t',
        nth_error (update_status log ts) i = Some t' /\
        status t' = match last_status (tileID t) log with
                    | Some st => st
                    | None => status t
                    end /\
        t' = match last_status (tileID t) log with
             | Some st => with_status st t
             | None => t
             end /\
        with_status (status t) t' = t).
Proof.
  assert (Hback : forall st t, with_status (status t) (with_status st t) = t)
    by (intros st t; destruct t; reflexivity).
  assert (Hself : forall t, with_status (status t) t = t)
    by (intros t; destruct t; reflexivity).
  split; [| split].
  - intros id st ts i t Ht.
    change (update_status [(id, st)] ts) with (set_status id st ts).
    rewrite set_status_nth, Ht. cbn [option_map].
    eexists. split; [reflexivity |].
    destruct (tileID t =? id)%Z; repeat split; auto.
  - intros id st ts l1 l2 Hno. split.
    + change (update_status [(id, st)] ts) with (set_status id st ts).
      now apply set_status_unmatched.
    + rewrite !update_status_app. cbn.
      fold (update_status l2 (set_status id st (update_status l1 ts))).
      rewrite set_status_unmatched; [reflexivity|].
      intros t Ht.
      assert (Hin : In (tileID t) (map tileID (update_status l1 ts)))
        by now apply in_map.
      rewrite update_status_ids in Hin.
      apply in_map_iff in Hin. destruct Hin as (t0 & E & Ht0).
      rewrite <- E. now apply Hno.
  - intros log ts i t Ht. rewrite update_status_nth, Ht. cbn [option_map].
    eexists. split; [reflexivity |].
    destruct (last_status (tileID t) log); repeat split; auto.
Qed.

(** The three parts of C6 on a log that names tile 1 twice and a tile 99
    that the catalog does not have: tile 1 ends with status 2. *)
Lemma update_status_overwrites_ignores_last_wins_witness :
  (exists t',
      nth_error (update_status [(1, 1); (99, 2); (1, 2)]%Z (tiles sample_planner)) 0
      = Some t' /\
      status t' = 2%Z /\
      tileID t' = 1%Z) /\
  update_status ([(1, 1)] ++ (99, 2) :: [(1, 2)])%Z (tiles sample_planner) =
  update_status ([(1, 1)] ++ [(1, 2)])%Z (tiles sample_planner).
Proof.
  destruct update_status_overwrites_ignores_last_wins as (_ & Hign & Hlast).
  split.
  - destruct (Hlast [(1, 1); (99, 2); (1, 2)]%Z (tiles sample_planner) 0%nat
                    (tile_of_row (sample_row 1 100 0 "DARK")) eq_refl)
      as (t' & Ht' & Hst & Heq & _).
    exists t'. split; [exact Ht' | split; [exact Hst |]].
    rewrite Heq. reflexivity.
  - apply (Hign 99%Z 2%Z (tiles sample_planner) [(1, 1)%Z] [(1, 2)%Z]).
    intros t Ht. cbn in Ht.
    destruct Ht as [E | [E | [E | []]]]; subst t; cbn; lia.
Defined.

Lemma status_monotone_refl ts : status_monotone ts ts.
Proof. intros i t t' H H'. rewrite H in H'. injection H' as <-. lia. Qed.

Lemma status_monotone_trans a b c :
  List.length a = List.length b ->
  status_monotone a b -> status_monotone b c -> status_monotone a c.
Proof.
  intros Hlen Hab Hbc i t t'' Ha Hc.
  destruct (nth_error b i) as [t' |] eqn:Hb.
  - specialize (Hab i t t' Ha Hb). specialize (Hbc i t' t'' Hb Hc). lia.
  - apply nth_error_None in Hb.
    assert (Hi : (i < List.length a)%nat) by (apply nth_error_Some; congruence).
    lia.
Qed.

Lemma set_status_monotone ts e :
  entry_raises ts e -> status_monotone ts (set_status (fst e) (snd e) ts).
Proof.
  intros H i t t' Ht Ht'.
  rewrite set_status_nth, Ht in Ht'. cbn in Ht'. injection Ht' as <-.
  destruct (Z.eqb_spec (tileID t) (fst e)) as [E | E].
  - cbn. apply H; [|exact E]. now apply (nth_error_In ts i).
  - lia.
Qed.

Lemma update_status_monotone log ts :
  log_raises ts log -> status_monotone ts (update_status log ts).
Proof.
  revert ts. induction log as [| e log IH]; intros ts H.
  - apply status_monotone_refl.
  - destruct H as [He Hrest].
    cbn. fold (update_status log (set_status (fst e) (snd e) ts)).
    apply status_monotone_trans with (b := set_status (fst e) (snd e) ts).
    + now rewrite set_status_length.
    + now apply set_status_monotone.
    + now apply IH.
Qed.

Lemma afternoonPlan_tiles mjd2lst radec2altaz self d log :
  tiles (out_self (afternoonPlan mjd2lst radec2altaz self d log)) =
  update_status log (tiles self).
Proof. cbn. unfold night_state. now rewrite getDarkTimes_tiles. Qed.

Lemma run_nights_length mjd2lst radec2altaz nights self :
  List.length (tiles (run_nights mjd2lst radec2altaz self nights)) =
  List.length (tiles self).
Proof.
  revert self. induction nights as [| [d log] nights IH]; intros self; [reflexivity|].
  cbn [run_nights]. rewrite IH, afternoonPlan_tiles. apply update_status_length.
Qed.

(** C3 fails on the code: the second night's log lowers tile 1 from
    status 2 to status 0, and the loop writes it. *)
Lemma status_can_decrease :
  let s1 := out_self (afternoonPlan sample_mjd2lst sample_radec2altaz
                                    sample_planner no_moon_night [(1, 2)%Z]) in
  let s2 := out_self (afternoonPlan sample_mjd2lst sample_radec2altaz
                                    s1 moonset_only_night [(1, 0)%Z]) in
  option_map status (nth_error (tiles s1) 0) = Some 2%Z /\
  option_map status (nth_error (tiles s2) 0) = Some 0%Z /\
  ~ status_monotone (tiles s1) (tiles s2).
Proof.
  intros s1 s2.
  assert (E1 : option_map status (nth_error (tiles s1) 0) = Some 2%Z).
  { unfold s1. rewrite afternoonPlan_tiles. reflexivity. }
  assert (E2 : option_map status (nth_error (tiles s2) 0) = Some 0%Z).
  { unfold s2, s1. rewrite !afternoonPlan_tiles. reflexivity. }
  split; [exact E1 | split; [exact E2 |]].
  intros H.
  destruct (nth_error (tiles s1) 0) as [t1 |] eqn:H1; [| discriminate].
  destruct (nth_error (tiles s2) 0) as [t2 |] eqn:H2; [| discriminate].
  specialize (H 0%nat t1 t2 H1 H2).
  cbn in E1, E2. injection E1 as E1. injection E2 as E2. lia.
Qed.

(** C3, amended.  An update from a log entry [(id, st)] gives every
    tile with that id the status [st] and leaves the others alone, so it
    lowers no status when [st] is at least the status those tiles have at
    that moment; when that holds of every entry of every night's log, no
    tile's status is lower after the run of nights than before. *)
Theorem status_never_decreases_when_logs_raise :
  forall (mjd2lst : Q -> Q) (radec2altaz : Q -> Q -> Q -> Q * Q)
         (nights : list (DayStats * list (Z * Z))) (self : surveyPlan),
    nights_raise mjd2lst radec2altaz self nights ->
    status_monotone (tiles self) (tiles (run_nights mjd2lst radec2altaz self nights)) /\
    (forall id st i t,
        nth_error (tiles self) i = Some t ->
        exists t', nth_error (set_status id st (tiles self)) i = Some t' /\
                   status t' = if (tileID t =? id)%Z then st else status t).
Proof.
  intros mjd2lst radec2altaz nights self H. split.
  - revert self H. induction nights as [| [d log] nights IH]; intros self H.
    + apply status_monotone_refl.
    + destruct H as [Hlog Hrest]. cbn [run_nights].
      apply status_monotone_trans
        with (b := tiles (out_self (afternoonPlan mjd2lst radec2altaz self d log))).
      * rewrite afternoonPlan_tiles. now rewrite update_status_length.
      * rewrite afternoonPlan_tiles. now apply update_status_monotone.
      * now apply IH.
  - intros id st i t Ht. rewrite set_status_nth, Ht. cbn [option_map].
    eexists. split; [reflexivity|].
    destruct (tileID t =? id)%Z; reflexivity.
Qed.

(** Two nights whose logs only raise: tile 1 goes 0, 1, 2. *)
Lemma status_never_decreases_when_logs_raise_witness :
  status_monotone
    (tiles sample_planner)
    (tiles (run_nights sample_mjd2lst sample_radec2altaz sample_planner
                       [(no_moon_night, [(1, 1)%Z]);
                        (moonset_only_night, [(1, 2)%Z; (3, 1)%Z])])).
Proof.
  apply (status_never_decreases_when_logs_raise
           sample_mjd2lst sample_radec2altaz
           [(no_moon_night, [(1, 1)%Z]); (moonset_only_night, [(1, 2)%Z; (3, 1)%Z])]
           sample_planner).
  cbn [nights_raise]. rewrite !afternoonPlan_tiles.
  repeat split;
    intros t Ht;
    cbn in Ht;
    repeat (destruct Ht as [Ht | Ht]; [subst t; cbn; lia |]);
    destruct Ht.
Defined.

(** ** The plan *)

Lemma insert_desc_perm x l : Permutation (insert_desc x l) (x :: l).
Proof.
  induction l as [| y l IH]; cbn.
  - apply Permutation_refl.
  - destruct (itemgetter7 x <? itemgetter7 y)%Z.
    + eapply perm_trans; [apply perm_skip, IH | apply perm_swap].
    + apply Permutation_refl.
Qed.

Lemma sorted_desc_perm l : Permutation (sorted_desc l) l.
Proof.
  induction l as [| x l IH]; cbn.
  - apply perm_nil.
  - eapply perm_trans; [apply insert_desc_perm | apply perm_skip, IH].
Qed.

Lemma sorted_desc_In r l : In r (sorted_desc l) <-> In r l.
Proof.
  split; apply Permutation_in;
    [apply sorted_desc_perm | apply Permutation_sym, sorted_desc_perm].
Qed.

(** The test of the selection loop only reads what the tuple keeps. *)
Lemma eligible_plan_row self t t' :
  plan_row t = plan_row t' -> eligible self t = eligible self t'.
Proof.
  unfold plan_row, eligible. intros H. injection H as.
  congruence.
Qed.

Lemma planList_In mjd2lst radec2altaz self d log r :
  In r (planList (afternoonPlan mjd2lst radec2altaz self d log)) <->
  exists t,
    In t (tiles (out_self (afternoonPlan mjd2lst radec2altaz self d log))) /\
    eligible (out_self (afternoonPlan mjd2lst radec2altaz self d log)) t = true /\
    r = plan_row t.
Proof.
  cbn [planList out_self afternoonPlan].
  rewrite sorted_desc_In. unfold planList0. rewrite in_map_iff.
  split.
  - intros (t & E & Ht). apply filter_In in Ht. destruct Ht as [Ht Hel].
    exists t. now repeat split.
  - intros (t & Ht & Hel & E). exists t. split; [now symmetry|].
    apply filter_In. now split.
Qed.

Lemma eligible_true_iff self t :
  eligible self t = true <->
  (status t < 2)%Z /\
  ((isItDark self (LSTmin t) = "DARK"%string /\
    isItDark self (LSTmax t) = "DARK"%string /\
    program t = "DARK"%string) \/
   ((isItDark self (LSTmin t) <> "DARK"%string \/
     isItDark self (LSTmax t) <> "DARK"%string) /\
    program t <> "DARK"%string)).
Proof.
  unfold eligible.
  rewrite andb_true_iff, orb_true_iff, !andb_true_iff, orb_true_iff,
    !negb_true_iff, !String.eqb_eq, !String.eqb_neq, Z.ltb_lt.
  tauto.
Qed.

(** C4.  Every row of a plan is the tuple of a catalog tile whose
    status, as updated that night, is below 2.  For a catalog tile with
    status below 2: if its program is DARK, its tuple is in the plan
    exactly when [isItDark] answers DARK at both [LSTmin] and [LSTmax]; if
    its program is not DARK, exactly when [isItDark] answers something
    else than DARK at one of the two at least. *)
Theorem afternoonPlan_eligibility :
  forall (mjd2lst : Q -> Q) (radec2altaz : Q -> Q -> Q -> Q * Q)
         (self : surveyPlan) (d : DayStats) (log : list (Z * Z)),
    let out := afternoonPlan mjd2lst radec2altaz self d log in
    let s := out_self out in
    (forall r, In r (planList out) ->
               exists t, In t (tiles s) /\ r = plan_row t /\ (status t < 2)%Z) /\
    (forall t, In t (tiles s) ->
       (In (plan_row t) (planList out) -> (status t < 2)%Z) /\
       ((2 <= status t)%Z -> ~ In (plan_row t) (planList out)) /\
       ((status t < 2)%Z -> program t = "DARK"%string ->
        (In (plan_row t) (planList out) <->
         isItDark s (LSTmin t) = "DARK"%string /\
         isItDark s (LSTmax t) = "DARK"%string)) /\
       ((status t < 2)%Z -> program t <> "DARK"%string ->
        (In (plan_row t) (planList out) <->
         isItDark s (LSTmin t) <> "DARK"%string \/
         isItDark s (LSTmax t) <> "DARK"%string))).
Proof.
  intros mjd2lst radec2altaz self d log out s.
  assert (Hin : forall t, In t (tiles s) ->
                          (In (plan_row t) (planList out) <-> eligible s t = true)).
  { intros t Ht. unfold out. rewrite planList_In. fold out. fold s. split.
    - intros (t' & _ & Hel & E). now rewrite (eligible_plan_row s t t' E).
    - intros Hel. exists t. now repeat split. }
  split.
  - intros r Hr. unfold out in Hr. apply planList_In in Hr.
    fold out in Hr. fold s in Hr. destruct Hr as (t & Ht & Hel & E).
    exists t. repeat split; try assumption.
    apply eligible_true_iff in Hel. tauto.
  - intros t Ht. specialize (Hin t Ht). rewrite eligible_true_iff in Hin.
    repeat split.
    + tauto.
    + intros H2 Hp. apply Hin in Hp. lia.
    + apply Hin in H1. tauto.
    + apply Hin in H1. tauto.
    + intros [Hmin Hmax]. apply Hin. tauto.
    + intros Hp. apply Hin in Hp. tauto.
    + intros Hor. apply Hin. tauto.
Qed.

(** On the dark night, with tile 3 reported done: tile 1 (DARK program,
    window 85 to 115 degrees, inside the dark time) is planned; tile 2
    (BRIGHT program, window 330 to 360 degrees, outside it) is planned;
    tile 3 (status 2) is not. *)
Lemma afternoonPlan_eligibility_witness :
  let out := afternoonPlan sample_mjd2lst sample_radec2altaz sample_planner
                           dark_night [(3, 2)%Z] in
  In (plan_row (tile_of_row (sample_row 1 100 0 "DARK"))) (planList out) /\
  In (plan_row (tile_of_row (sample_row 2 345 0 "BRIGHT"))) (planList out) /\
  ~ In (plan_row (with_status 2 (tile_of_row (sample_row 3 50 0 "DARK"))))
       (planList out).
Proof.
  intros out.
  destruct (afternoonPlan_eligibility sample_mjd2lst sample_radec2altaz
              sample_planner dark_night [(3, 2)%Z]) as [_ H].
  fold out in H.
  assert (Ht : tiles (out_self out) =
               [tile_of_row (sample_row 1 100 0 "DARK");
                tile_of_row (sample_row 2 345 0 "BRIGHT");
                with_status 2 (tile_of_row (sample_row 3 50 0 "DARK"))]).
  { unfold out. rewrite afternoonPlan_tiles. reflexivity. }
  split; [| split].
  - destruct (H (tile_of_row (sample_row 1 100 0 "DARK"))) as (_ & _ & Hd & _).
    { rewrite Ht. left. reflexivity. }
    apply Hd.
    + cbn. lia.
    + reflexivity.
    + split; vm_compute; reflexivity.
  - destruct (H (tile_of_row (sample_row 2 345 0 "BRIGHT"))) as (_ & _ & _ & Hb).
    { rewrite Ht. right. left. reflexivity. }
    apply Hb.
    + cbn. lia.
    + cbn. discriminate.
    + left. vm_compute. discriminate.
  - destruct (H (with_status 2 (tile_of_row (sample_row 3 50 0 "DARK"))))
      as (_ & Hn & _).
    { rewrite Ht. right. right. left. reflexivity. }
    apply Hn. cbn. lia.
Defined.

(** ** The LST window of a tile *)

Lemma wrap_lst_closed_range x :
  -360 <= x -> x <= 720 -> in_0_360_closed (wrap_lst x).
Proof.
  intros Hlo Hhi. unfold wrap_lst, in_0_360_closed.
  destruct (Qltb_spec x 0); [lra|].
  destruct (Qltb_spec 360 x); lra.
Qed.

Lemma init_tiles_In tiledata t :
  In t (tiles (surveyPlan_init tiledata)) <->
  exists r, In r tiledata /\ Fits.IN_DESI r = 1%Z /\ t = tile_of_row r.
Proof.
  cbn [tiles surveyPlan_init]. rewrite in_map_iff. split.
  - intros (r & E & Hr). apply filter_In in Hr. destruct Hr as [Hr Hin].
    exists r. repeat split; [assumption | now apply Z.eqb_eq | now symmetry].
  - intros (r & Hr & Hin & E). exists r. split; [now symmetry|].
    apply filter_In. split; [assumption | now apply Z.eqb_eq].
Qed.

(** C8 fails on the code.  A tile at RA 345 with hour angle 0 has the
    unwrapped upper bound 360, which the test [> 360.0] leaves alone:
    [LSTmax] is 360, outside [0, 360).  A hour angle of -400 at RA 10 leaves
    [LSTmin] at -45 after the one wrap the loop does. *)
Lemma init_lst_window_not_half_open :
  ~ (forall t, In t (tiles (surveyPlan_init [sample_row 2 345 0 "BRIGHT"])) ->
               in_0_360 (LSTmin t) /\ in_0_360 (LSTmax t)) /\
  ~ (forall t, In t (tiles (surveyPlan_init [sample_row 4 10 (-400) "DARK"])) ->
               in_0_360 (LSTmin t) /\ in_0_360 (LSTmax t)).
Proof.
  split; intros H.
  - destruct (H (tile_of_row (sample_row 2 345 0 "BRIGHT"))) as [_ [_ Hmax]].
    { left. reflexivity. }
    vm_compute in Hmax. discriminate.
  - destruct (H (tile_of_row (sample_row 4 10 (-400) "DARK"))) as [[Hmin _] _].
    { left. reflexivity. }
    vm_compute in Hmin. apply Hmin. reflexivity.
Qed.

(** C8, amended.  Every retained tile comes from a catalog row with
    [IN_DESI = 1]; its [LSTmin] and [LSTmax] are [RA + HA - 15] and
    [RA + HA + 15] after one wrap, and both lie in the closed interval
    [0, 360] whenever [RA + HA] lies between -345 and 705 (one turn on
    either side, which is all the single wrap can take back). *)
Theorem init_lst_window_closed_range :
  forall (tiledata : list Fits.row) (t : Tile),
    In t (tiles (surveyPlan_init tiledata)) ->
    exists r,
      In r tiledata /\ Fits.IN_DESI r = 1%Z /\
      LSTmin t = wrap_lst (Fits.RA r + Fits.HA r - 15) /\
      LSTmax t = wrap_lst (Fits.RA r + Fits.HA r + 15) /\
      (-345 <= Fits.RA r + Fits.HA r -> Fits.RA r + Fits.HA r <= 705 ->
       in_0_360_closed (LSTmin t) /\ in_0_360_closed (LSTmax t)).
Proof.
  intros tiledata t Ht. apply init_tiles_In in Ht.
  destruct Ht as (r & Hr & Hin & ->).
  exists r. repeat split; try assumption;
    cbn [LSTmin LSTmax tile_of_row]; apply wrap_lst_closed_range; lra.
Qed.

(** The sample catalog: every retained tile has both bounds in
    [0, 360]; tile 2 has the window 330 to 360. *)
Lemma init_lst_window_closed_range_witness :
  In (tile_of_row (sample_row 2 345 0 "BRIGHT")) (tiles (surveyPlan_init sample_catalog)) /\
  in_0_360_closed (LSTmin (tile_of_row (sample_row 2 345 0 "BRIGHT"))) /\
  in_0_360_closed (LSTmax (tile_of_row (sample_row 2 345 0 "BRIGHT"))).
Proof.
  assert (Hin : In (tile_of_row (sample_row 2 345 0 "BRIGHT"))
                   (tiles (surveyPlan_init sample_catalog)))
    by (right; left; reflexivity).
  split; [exact Hin|].
  destruct (init_lst_window_closed_range sample_catalog _ Hin)
    as (r & Hr & _ & _ & _ & Hrange).
  apply Hrange;
    destruct Hr as [<- | [<- | [<- | []]]]; cbn; lra.
Defined.

(** ** [isItDark] *)

Lemma reachable_moonUp mjd2lst radec2altaz s :
  reachable mjd2lst radec2altaz s ->
  moonUp s = "GREY"%string \/ moonUp s = "BRIGHT"%string.
Proof.
  intros H. destruct H as [tiledata | s d _ | s d log _].
  - right. reflexivity.
  - apply getDarkTimes_moonUp.
  - apply getDarkTimes_moonUp.
Qed.

Lemma window_test b e lst :
  Qltb 0 b && Qltb b lst && Qltb 0 e && Qltb lst e = true <-> inside_window b e lst.
Proof.
  unfold inside_window. rewrite !andb_true_iff, !Qltb_lt. tauto.
Qed.

Lemma window_test_begin_zero b e lst :
  b == 0 -> Qltb 0 b && Qltb b lst && Qltb 0 e && Qltb lst e = false.
Proof.
  intros Hb. assert (E : Qltb 0 b = false) by (apply Qltb_ge; lra).
  rewrite E. reflexivity.
Qed.

(** C10.  On a planner object in any state it can be in, [isItDark]
    answers DARK exactly for an LST strictly inside one of the two
    windows, a window counting only when both its bounds are strictly
    positive.  A window that begins at exactly 0.0 therefore counts as
    little as one that holds the sentinel: the answers are those of the
    state with that window reset to [-1.0], and DARK can only come from
    the other window. *)
Theorem isItDark_DARK_needs_positive_begin :
  forall (mjd2lst : Q -> Q) (radec2altaz : Q -> Q -> Q -> Q * Q)
         (s : surveyPlan) (lst : Q),
    reachable mjd2lst radec2altaz s ->
    (isItDark s lst = "DARK"%string <->
     inside_window (LST_dark1_begin s) (LST_dark1_end s) lst \/
     inside_window (LST_dark2_begin s) (LST_dark2_end s) lst) /\
    (LST_dark1_begin s == 0 ->
     isItDark s lst = isItDark (set_LST_dark1_end (-1) (set_LST_dark1_begin (-1) s)) lst /\
     (isItDark s lst = "DARK"%string ->
      inside_window (LST_dark2_begin s) (LST_dark2_end s) lst)) /\
    (LST_dark2_begin s == 0 ->
     isItDark s lst = isItDark (set_LST_dark2_end (-1) (set_LST_dark2_begin (-1) s)) lst /\
     (isItDark s lst = "DARK"%string ->
      inside_window (LST_dark1_begin s) (LST_dark1_end s) lst)).
Proof.
  intros mjd2lst radec2altaz s lst Hreach.
  assert (Hiff : isItDark s lst = "DARK"%string <->
                 inside_window (LST_dark1_begin s) (LST_dark1_end s) lst \/
                 inside_window (LST_dark2_begin s) (LST_dark2_end s) lst).
  { rewrite <- !window_test, <- orb_true_iff. unfold isItDark.
    destruct (_ || _).
    - split; reflexivity.
    - split; [| discriminate].
      destruct (reachable_moonUp _ _ _ Hreach) as [E | E]; rewrite E; discriminate. }
  split; [exact Hiff | split].
  - intros Hb. split.
    + unfold isItDark. cbn.
      rewrite (window_test_begin_zero _ _ _ Hb). reflexivity.
    + intros HD. apply Hiff in HD. destruct HD as [H1 | H2]; [| exact H2].
      destruct H1 as (Hpos & _). lra.
  - intros Hb. split.
    + unfold isItDark. cbn.
      rewrite (window_test_begin_zero _ _ _ Hb). reflexivity.
    + intros HD. apply Hiff in HD. destruct HD as [H1 | H2]; [exact H1 |].
      destruct H2 as (Hpos & _). lra.
Qed.

(** A night whose evening twilight falls at LST 0 with the stand-in
    conversion: the window is (0, 144), and LST 10, between the two, is
    not DARK. *)
Lemma isItDark_DARK_needs_positive_begin_witness :
  let s := getDarkTimes sample_mjd2lst sample_radec2altaz sample_planner
                        late_moonrise_night in
  LST_dark1_begin s = 0 /\ LST_dark1_end s = 144 /\
  isItDark s 10 <> "DARK"%string.
Proof.
  intros s.
  assert (Hreach : reachable sample_mjd2lst sample_radec2altaz s)
    by (apply reach_getDarkTimes, reach_init).
  destruct (isItDark_DARK_needs_positive_begin
              sample_mjd2lst sample_radec2altaz s 10 Hreach) as (_ & H0 & _).
  split; [reflexivity | split; [reflexivity |]].
  intros HD.
  assert (Hz : LST_dark1_begin s == 0) by reflexivity.
  destruct (H0 Hz) as [_ H2]. apply H2 in HD.
  destruct HD as (Hpos & _). vm_compute in Hpos. discriminate.
Defined.

(** ** [Weather.get] *)

Local Open Scope Z_scope.

Lemma Qfloor_unique (x : Q) (n : Z) :
  (inject_Z n <= x)%Q -> (x < inject_Z (n + 1))%Q -> Qfloor x = n.
Proof.
  intros Hlo Hhi.
  pose proof (Qfloor_le x) as H1. pose proof (Qlt_floor x) as H2.
  assert (A : (inject_Z n < inject_Z (Qfloor x + 1))%Q) by lra.
  assert (B : (inject_Z (Qfloor x) < inject_Z (n + 1))%Q) by lra.
  rewrite <- Zlt_Qlt in A, B. lia.
Qed.

Lemma py_index_in_range tab o :
  0 <= o < Z.of_nat (List.length tab) ->
  exists r, nth_error tab (Z.to_nat o) = Some r /\ py_index tab o = Ok r.
Proof.
  intros H. unfold py_index.
  destruct (Z.ltb_spec o 0) as [Hneg | _]; [lia|].
  destruct (Z.leb_spec 0 o) as [_ | Hneg]; [| lia].
  destruct (Z.ltb_spec o (Z.of_nat (List.length tab))) as [_ | Hge]; [| lia].
  cbn [andb].
  destruct (nth_error tab (Z.to_nat o)) as [r |] eqn:E.
  - exists r. split; reflexivity.
  - apply nth_error_None in E. lia.
Qed.


Lemma py_index_past_end tab o :
  Z.of_nat (List.length tab) <= o -> py_index tab o = Raise IndexError.
Proof.
  intros H. unfold py_index.
  destruct (Z.ltb_spec o 0) as [Hneg | _]; [lia|].
  destruct (Z.ltb_spec o (Z.of_nat (List.length tab))) as [Hlt | _]; [lia|].
  now rewrite andb_false_r.
Qed.


Lemma py_take_past_end tab offsets :
  Forall (fun o => 0 <= o) offsets ->
  Exists (fun o => Z.of_nat (List.length tab) <= o) offsets ->
  py_take tab offsets = Raise IndexError.
Proof.
  intros Hall Hex. induction offsets as [| o offsets IH]; [inversion Hex|].
  inversion Hall as [| ? ? Ho Hall']; subst.
  cbn. destruct (Z.lt_ge_cases o (Z.of_nat (List.length tab))) as [Hlt | Hge].
  - destruct (py_index_in_range tab o (conj Ho Hlt)) as (r & _ & ->). cbn.
    rewrite IH; [reflexivity | assumption |].
    inversion Hex; subst; [lia | assumption].
  - now rewrite py_index_past_end.
Qed.

Lemma beyond_range_true len offset :
  beyond_range len offset = true <-> Exists (fun o => o < 0 \/ len < o) offset.
Proof.
  unfold beyond_range. rewrite orb_true_iff, !existsb_exists, Exists_exists.
  split.
  - intros [(o & Hin & Ho) | (o & Hin & Ho)]; exists o; split; try assumption.
    + left. now apply Z.ltb_lt.
    + right. now apply Z.ltb_lt.
  - intros (o & Hin & [Ho | Ho]); [left | right]; exists o;
      (split; [assumption | now apply Z.ltb_lt]).
Qed.

Lemma beyond_range_false len offset :
  beyond_range len offset = false <-> Forall (fun o => 0 <= o <= len) offset.
Proof.
  rewrite <- not_true_iff_false, beyond_range_true, <- Forall_Exists_neg.
  split; apply Forall_impl; intros o Ho; lia.
Qed.

(** The shape of [get] on a table that has a first row. *)
Lemma get_nonempty self r0 rest time :
  _table self = r0 :: rest ->
  get self time =
  if beyond_range (Z.of_nat (List.length (_table self)))
                  (offsets_of (mjd r0) (steps_per_day self) time)
  then Raise ValueError
  else match time with
       | TScalar t =>
           r <- py_index (_table self) (offset_of (mjd r0) (steps_per_day self) t) ;;
           Ok (SRow r)
       | TArray _ =>
           rs <- py_take (_table self) (offsets_of (mjd r0) (steps_per_day self) time) ;;
           Ok (SRows rs)
       end.
Proof. intros H. unfold get. rewrite H. reflexivity. Qed.

Lemma offset_of_grid_point mjd0 steps n :
  0 < steps ->
  offset_of mjd0 steps (mjd0 + inject_Z n / inject_Z steps) = n.
Proof.
  intros Hs. unfold offset_of. apply Qfloor_unique.
  - assert (Hq : (0 < inject_Z steps)%Q) by (rewrite <- (Zlt_Qlt 0); exact Hs).
    assert (E : ((mjd0 + inject_Z n / inject_Z steps - mjd0) * inject_Z steps
                 == inject_Z n)%Q) by (field; lra).
    rewrite E. lra.
  - assert (Hq : (0 < inject_Z steps)%Q) by (rewrite <- (Zlt_Qlt 0); exact Hs).
    assert (E : ((mjd0 + inject_Z n / inject_Z steps - mjd0) * inject_Z steps
                 == inject_Z n)%Q) by (field; lra).
    rewrite E. rewrite inject_Z_plus. change (inject_Z 1) with 1%Q. lra.
Qed.

(** C9.  On a table with a first row, the range test lets the offset
    [len(table)] through, and the row lookup that follows fails on it:
    a single time with that offset, and any array of times with offsets
    in [0, len(table)] one of which is [len(table)], end in [IndexError],
    not in the range error.  Such a time exists whenever
    [steps_per_day] is positive: [len(table)] steps after the first
    row. *)
Theorem get_range_check_lets_len_through :
  forall (self : Weather) (r0 : Row) (rest : list Row),
    _table self = r0 :: rest ->
    let len := Z.of_nat (List.length (_table self)) in
    beyond_range len [len] = false /\
    py_index (_table self) len = Raise IndexError /\
    (forall t,
        offset_of (mjd r0) (steps_per_day self) t = len ->
        get self (TScalar t) = Raise IndexError) /\
    (forall ts,
        Forall (fun t => 0 <= offset_of (mjd r0) (steps_per_day self) t <= len) ts ->
        Exists (fun t => offset_of (mjd r0) (steps_per_day self) t = len) ts ->
        get self (TArray ts) = Raise IndexError) /\
    (0 < steps_per_day self ->
     get self (TScalar (mjd r0 + inject_Z len / inject_Z (steps_per_day self)))
     = Raise IndexError).
Proof.
  intros self r0 rest Htab len.
  assert (Hchk : beyond_range len [len] = false).
  { apply beyond_range_false. constructor; [| constructor].
    unfold len. lia. }
  assert (Hscalar : forall t,
             offset_of (mjd r0) (steps_per_day self) t = len ->
             get self (TScalar t) = Raise IndexError).
  { intros t Ht. rewrite (get_nonempty self r0 rest _ Htab).
    cbn [offsets_of]. rewrite Ht. fold len. rewrite Hchk.
    rewrite py_index_past_end by (unfold len; lia). reflexivity. }
  split; [exact Hchk | split; [| split; [exact Hscalar | split]]].
  - apply py_index_past_end. unfold len. lia.
  - intros ts Hall Hex. rewrite (get_nonempty self r0 rest _ Htab).
    cbn [offsets_of]. fold len.
    assert (Hno : beyond_range len (map (offset_of (mjd r0) (steps_per_day self)) ts)
                  = false).
    { apply beyond_range_false. rewrite Forall_map. exact Hall. }
    rewrite Hno. rewrite py_take_past_end; [reflexivity | |].
    + rewrite Forall_map. revert Hall. apply Forall_impl. intros t Ht. lia.
    + rewrite Exists_map. revert Hex. apply Exists_impl. intros t Ht.
      fold len. lia.
  - intros Hs. apply Hscalar. now apply offset_of_grid_point.
Qed.

(** On the small table (four rows, four steps a day), the time one day
    after the first row has offset 4. *)
Lemma get_range_check_lets_len_through_witness :
  get small_weather (TScalar (57001 + (1 # 2))%Q) = Raise IndexError /\
  get small_weather (TArray [57001; 57001 + (1 # 2)]%Q) = Raise IndexError.
Proof.
  destruct (get_range_check_lets_len_through small_weather _ _ eq_refl)
    as (_ & _ & Hs & Ha & _).
  split.
  - apply Hs. reflexivity.
  - apply Ha.
    + repeat constructor; vm_compute; discriminate.
    + right. left. reflexivity.
Defined.








(** ** [Weather.__init__] *)

Local Open Scope Q_scope.


Lemma np_allclose_zero_steps ts : np_allclose (inject_Z 0 * ts) 1 = false.
Proof.
  unfold np_allclose. apply Qleb_gt.
  assert (E : inject_Z 0 * ts - 1 == -1) by (change (inject_Z 0) with 0; ring).
  rewrite E. reflexivity.
Qed.

Lemma nth_error_seq0 n k : (k < n)%nat -> nth_error (seq 0 n) k = Some k.
Proof.
  intros H.
  rewrite (nth_error_nth' _ 0%nat) by now rewrite length_seq.
  now rewrite seq_nth.
Qed.

Lemma np_ones_nonneg n : (0 <= n)%Z -> np_ones n = Ok (repeat true (Z.to_nat n)).
Proof.
  intros H. unfold np_ones.
  destruct (Z.ltb_spec n 0); [lia | reflexivity].
Qed.

Lemma float_overflows_bounded q :
  Qabs q <= 86400000 -> float_overflows q = false.
Proof.
  intros H. unfold float_overflows. apply Qleb_gt.
  eapply Qle_lt_trans; [exact H |]. reflexivity.
Qed.


Section WeatherInitFacts.

Variable RandomState : Type.
Variable config_first_day config_last_day : Z.
Variable local_noon_on_date : Z -> Q.
Variable month_of_mjd : Q -> Z.
Variable dome_closed_probabilities : list Q.
Variable fresh_RandomState : RandomState.
Variable uniform : RandomState -> Q * RandomState.
Variable sample_seeing : Z -> Q -> RandomState -> (nat -> Q) * RandomState.
Variable sample_transp : Z -> Q -> RandomState -> (nat -> Q) * RandomState.


End WeatherInitFacts.



(** * Further properties of the planner *)

(** ** Priorities *)

Ltac cases_on_comparisons :=
  repeat match goal with
         | |- context [Qltb ?a ?b] =>
             destruct (Qltb_spec a b); try (exfalso; lra)
         | |- context [Qleb ?a ?b] =>
             destruct (Qleb_spec a b); try (exfalso; lra)
         end.

Lemma priority_of_dec_monotone d1 d2 :
  d1 <= d2 -> (priority_of_dec d1 <= priority_of_dec d2)%Z.
Proof.
  intros H. unfold priority_of_dec.
  cases_on_comparisons; cbn [andb]; lia.
Qed.

(** X1.  The priority computed from the declination is an integer from
    1 to 8 that never decreases when the declination grows; it is 1
    exactly up to -15 degrees and 8 exactly from 75 degrees on (the band of
    priority 7 is open at 75). *)
Theorem priority_of_dec_bands :
  forall dec : Q,
    (1 <= priority_of_dec dec <= 8)%Z /\
    (priority_of_dec dec = 1%Z <-> dec <= -15) /\
    (priority_of_dec dec = 8%Z <-> 75 <= dec) /\
    (priority_of_dec dec = 7%Z <-> 60 < dec /\ dec < 75) /\
    (forall dec', dec <= dec' -> (priority_of_dec dec <= priority_of_dec dec')%Z).
Proof.
  intros dec. split; [| split; [| split; [| split]]].
  - unfold priority_of_dec. cases_on_comparisons; cbn [andb]; lia.
  - unfold priority_of_dec. cases_on_comparisons; cbn [andb];
      split; intros Hx; try lia; try lra.
  - unfold priority_of_dec. cases_on_comparisons; cbn [andb];
      split; intros Hx; try lia; try lra.
  - unfold priority_of_dec. cases_on_comparisons; cbn [andb];
      split; intros Hx; try lia; try lra.
  - intros dec'. apply priority_of_dec_monotone.
Qed.

Lemma priority_of_dec_bands_witness :
  (priority_of_dec 10 <= priority_of_dec 75)%Z.
Proof.
  destruct (priority_of_dec_bands 10) as (_ & _ & _ & _ & H).
  apply H. cbn. lra.
Defined.

(** ** The fresh object *)

(** X2.  [__init__] keeps the catalog rows with [IN_DESI = 1], in
    catalog order and no others; every kept tile starts with status 0, a
    priority from 1 to 8 and twice its [OBSTIME] as [maxExpLen]; and until
    [getDarkTimes] has run, [isItDark] answers BRIGHT for every LST. *)
Theorem surveyPlan_init_retains_in_desi :
  forall tiledata : list Fits.row,
    map tileID (tiles (surveyPlan_init tiledata))
    = map Fits.TILEID (filter (fun r => (Fits.IN_DESI r =? 1)%Z) tiledata) /\
    (List.length (tiles (surveyPlan_init tiledata)) <= List.length tiledata)%nat /\
    (forall t, In t (tiles (surveyPlan_init tiledata)) ->
               status t = 0%Z /\ (1 <= priority t <= 8)%Z /\
               exists r, In r tiledata /\ Fits.IN_DESI r = 1%Z /\
                         tileID t = Fits.TILEID r /\
                         maxExpLen t = 2 * Fits.OBSTIME r) /\
    (forall lst, isItDark (surveyPlan_init tiledata) lst = "BRIGHT"%string).
Proof.
  intros tiledata. split; [| split; [| split]].
  - cbn [tiles surveyPlan_init]. rewrite map_map. reflexivity.
  - cbn [tiles surveyPlan_init]. rewrite length_map. apply filter_length_le.
  - intros t Ht. apply init_tiles_In in Ht. destruct Ht as (r & Hr & Hd & ->).
    split; [reflexivity | split].
    + cbn [priority tile_of_row].
      unfold priority_of_dec. cases_on_comparisons; cbn [andb]; lia.
    + exists r. now repeat split.
  - intros lst. reflexivity.
Qed.

Lemma surveyPlan_init_retains_in_desi_witness :
  status (tile_of_row (sample_row 3 50 0 "DARK")) = 0%Z /\
  (1 <= priority (tile_of_row (sample_row 3 50 0 "DARK")) <= 8)%Z.
Proof.
  destruct (surveyPlan_init_retains_in_desi sample_catalog) as (_ & _ & H & _).
  destruct (H (tile_of_row (sample_row 3 50 0 "DARK"))) as (Hs & Hp & _).
  - right. right. left. reflexivity.
  - split; assumption.
Defined.

(** ** [getDarkTimes], branch by branch *)

Lemma getDarkTimes_windows_moon_rises mjd2lst radec2altaz s d :
  0 < MJDmoonrise d ->
  dark_windows (getDarkTimes mjd2lst radec2altaz s d) =
  if Qltb (MJDmoonrise d) (MJDetwi d) then
    if Qltb (MJDmoonset d) (MJDmtwi d)
    then (mjd2lst (MJDmoonset d), mjd2lst (MJDmtwi d), -1, -1)
    else (-1, -1, -1, -1)
  else if Qltb (MJDmoonrise d) (MJDmtwi d) then
    if Qltb (MJDmoonset d) (MJDmtwi d)
    then (mjd2lst (MJDetwi d), mjd2lst (MJDmoonrise d),
          mjd2lst (MJDmoonset d), mjd2lst (MJDmtwi d))
    else (mjd2lst (MJDetwi d), mjd2lst (MJDmoonrise d), -1, -1)
  else (mjd2lst (MJDetwi d), mjd2lst (MJDmtwi d), -1, -1).
Proof.
  intros H. apply Qltb_lt in H. unfold getDarkTimes. rewrite H. cbn [andb].
  destruct (radec2altaz _ _ _) as [alt az].
  destruct (Qltb (MJDmoonrise d) (MJDetwi d));
    destruct (Qltb (MJDmoonset d) (MJDmtwi d));
    destruct (Qltb (MJDmoonrise d) (MJDmtwi d));
    destruct (_ || _); reflexivity.
Qed.

Lemma isItDark_windows s s' lst :
  dark_windows s = dark_windows s' -> moonUp s = moonUp s' ->
  isItDark s lst = isItDark s' lst.
Proof.
  unfold dark_windows, isItDark. intros H Hm. injection H as -> -> -> ->.
  now rewrite Hm.
Qed.

(** X4.  On a night with a positive moonrise entry the four window
    bounds are computed afresh: they depend on the night alone, not on what
    the object held before.  The moon up at evening twilight leaves the time
    from moonset to morning twilight, or nothing when it sets later; the
    moon rising during the night leaves evening twilight to moonrise, and
    moonset to morning twilight as a second window when it sets before it;
    the moon rising after morning twilight leaves the whole night. *)
Theorem getDarkTimes_moon_rises :
  forall (mjd2lst : Q -> Q) (radec2altaz : Q -> Q -> Q -> Q * Q)
         (s : surveyPlan) (d : DayStats),
    0 < MJDmoonrise d ->
    let s' := getDarkTimes mjd2lst radec2altaz s d in
    (forall s0, dark_windows (getDarkTimes mjd2lst radec2altaz s0 d) = dark_windows s') /\
    (MJDmoonrise d < MJDetwi d -> MJDmoonset d < MJDmtwi d ->
     dark_windows s' = (mjd2lst (MJDmoonset d), mjd2lst (MJDmtwi d), -1, -1)) /\
    (MJDmoonrise d < MJDetwi d -> MJDmtwi d <= MJDmoonset d ->
     dark_windows s' = (-1, -1, -1, -1)) /\
    (MJDetwi d <= MJDmoonrise d -> MJDmoonrise d < MJDmtwi d ->
     MJDmoonset d < MJDmtwi d ->
     dark_windows s' = (mjd2lst (MJDetwi d), mjd2lst (MJDmoonrise d),
                        mjd2lst (MJDmoonset d), mjd2lst (MJDmtwi d))) /\
    (MJDetwi d <= MJDmoonrise d -> MJDmoonrise d < MJDmtwi d ->
     MJDmtwi d <= MJDmoonset d ->
     dark_windows s' = (mjd2lst (MJDetwi d), mjd2lst (MJDmoonrise d), -1, -1)) /\
    (MJDetwi d <= MJDmoonrise d -> MJDmtwi d <= MJDmoonrise d ->
     dark_windows s' = (mjd2lst (MJDetwi d), mjd2lst (MJDmtwi d), -1, -1)).
Proof.
  intros mjd2lst radec2altaz s d Hrise s'. unfold s'.
  split.
  { intros s0. now rewrite !getDarkTimes_windows_moon_rises. }
  rewrite getDarkTimes_windows_moon_rises by assumption.
  repeat split; intros; cases_on_comparisons; reflexivity.
Qed.

(** The night with the moon rising during the night and setting before
    morning twilight has the two windows (36, 72) and (108, 144), whatever
    the object held. *)
Lemma getDarkTimes_moon_rises_witness :
  dark_windows (getDarkTimes sample_mjd2lst sample_radec2altaz
                             (getDarkTimes sample_mjd2lst sample_radec2altaz
                                           sample_planner dark_night)
                             two_window_night)
  = (36, 72, 108, 144).
Proof.
  assert (Hrise : 0 < MJDmoonrise two_window_night) by reflexivity.
  destruct (getDarkTimes_moon_rises
              sample_mjd2lst sample_radec2altaz
              (getDarkTimes sample_mjd2lst sample_radec2altaz sample_planner dark_night)
              two_window_night Hrise) as (_ & _ & _ & H & _).
  apply H; cbn; lra.
Defined.

(** X5.  The sentinel in the moonset entry is not recognised: when the
    moon rises (positive entry, before morning twilight) and does not set
    (negative entry), the negative moonset still counts as earlier than
    morning twilight and a window from [mjd2lst] of the sentinel to morning
    twilight is set, as first window when the moon is up at evening
    twilight and as second window otherwise. *)
Theorem getDarkTimes_moonset_sentinel_taken_as_time :
  forall (mjd2lst : Q -> Q) (radec2altaz : Q -> Q -> Q -> Q * Q)
         (s : surveyPlan) (d : DayStats),
    0 < MJDmoonrise d ->
    MJDmoonrise d < MJDmtwi d ->
    MJDmoonset d < 0 ->
    let s' := getDarkTimes mjd2lst radec2altaz s d in
    (MJDmoonrise d < MJDetwi d ->
     LST_dark1_begin s' = mjd2lst (MJDmoonset d) /\
     LST_dark1_end s' = mjd2lst (MJDmtwi d)) /\
    (MJDetwi d <= MJDmoonrise d ->
     LST_dark2_begin s' = mjd2lst (MJDmoonset d) /\
     LST_dark2_end s' = mjd2lst (MJDmtwi d)).
Proof.
  intros mjd2lst radec2altaz s d Hrise Hbefore Hset s'.
  pose proof (getDarkTimes_windows_moon_rises mjd2lst radec2altaz s d Hrise) as W.
  fold s' in W. unfold dark_windows in W.
  split; intros Hcmp; revert W; cases_on_comparisons;
    intros W; injection W as E1 E2 E3 E4; split; assumption.
Qed.

Lemma getDarkTimes_moonset_sentinel_taken_as_time_witness :
  LST_dark1_begin (getDarkTimes sample_mjd2lst sample_radec2altaz
                                sample_planner moon_up_all_night)
  = sample_mjd2lst (-1) /\
  LST_dark1_end (getDarkTimes sample_mjd2lst sample_radec2altaz
                              sample_planner moon_up_all_night)
  = 144.
Proof.
  apply (getDarkTimes_moonset_sentinel_taken_as_time
           sample_mjd2lst sample_radec2altaz sample_planner moon_up_all_night);
    cbn; lra.
Defined.

(** X6.  On a night whose moonrise entry is not positive, the first
    window is the one the object held before the call and the second is
    reset: [isItDark] answers DARK exactly inside the first window of the
    earlier state, so the dark time of an earlier night is carried into
    this one. *)
Theorem getDarkTimes_keeps_earlier_window :
  forall (mjd2lst : Q -> Q) (radec2altaz : Q -> Q -> Q -> Q * Q)
         (s : surveyPlan) (d : DayStats) (lst : Q),
    MJDmoonrise d <= 0 ->
    let s' := getDarkTimes mjd2lst radec2altaz s d in
    dark_windows s' = (LST_dark1_begin s, LST_dark1_end s, -1, -1) /\
    (isItDark s' lst = "DARK"%string <->
     inside_window (LST_dark1_begin s) (LST_dark1_end s) lst).
Proof.
  intros mjd2lst radec2altaz s d lst Hrise s'.
  destruct (getDarkTimes_moonrise_not_positive mjd2lst radec2altaz s d Hrise)
    as (Hb & He & Hb2 & He2 & _).
  fold s' in Hb, He, Hb2, He2.
  split.
  - unfold dark_windows. now rewrite Hb, He, Hb2, He2.
  - unfold isItDark. rewrite Hb, He, Hb2, He2. cbn [Qltb Qle_bool negb andb].
    rewrite <- window_test.
    change (Qltb 0 (-1)) with false. cbn [andb]. rewrite orb_false_r.
    destruct (_ && _).
    + split; reflexivity.
    + split; [| discriminate].
      destruct (getDarkTimes_moonUp mjd2lst radec2altaz s d) as [E | E];
        fold s' in E; rewrite E; discriminate.
Qed.

(** After the dark night (window 36 to 144), the night without moon
    leaves LST 100 DARK. *)
Lemma getDarkTimes_keeps_earlier_window_witness :
  isItDark (getDarkTimes sample_mjd2lst sample_radec2altaz
                         (getDarkTimes sample_mjd2lst sample_radec2altaz
                                       sample_planner dark_night)
                         no_moon_night) 100
  = "DARK"%string.
Proof.
  assert (Hrise : MJDmoonrise no_moon_night <= 0) by (cbn; lra).
  destruct (getDarkTimes_keeps_earlier_window
              sample_mjd2lst sample_radec2altaz
              (getDarkTimes sample_mjd2lst sample_radec2altaz sample_planner dark_night)
              no_moon_night 100 Hrise) as [_ H].
  apply H. repeat split.
Defined.



(** ** The status update, further *)

Lemma with_status_self t : with_status (status t) t = t.
Proof. destruct t. reflexivity. Qed.

Lemma update_status_keeps_tile log ts i t :
  nth_error ts i = Some t ->
  exists st, nth_error (update_status log ts) i = Some (with_status st t).
Proof.
  intros Ht. rewrite update_status_nth, Ht. cbn [option_map].
  destruct (last_status (tileID t) log) as [st |].
  - now exists st.
  - exists (status t). now rewrite with_status_self.
Qed.

Lemma run_nights_keeps_tile mjd2lst radec2altaz nights :
  forall self i t,
    nth_error (tiles self) i = Some t ->
    exists st,
      nth_error (tiles (run_nights mjd2lst radec2altaz self nights)) i
      = Some (with_status st t).
Proof.
  induction nights as [| [d log] nights IH]; intros self i t Ht.
  - exists (status t). cbn. now rewrite with_status_self.
  - cbn [run_nights].
    destruct (update_status_keeps_tile log (tiles self) i t Ht) as (st & Hst).
    rewrite <- afternoonPlan_tiles with (mjd2lst := mjd2lst)
      (radec2altaz := radec2altaz) (d := d) in Hst.
    destruct (IH _ i _ Hst) as (st' & Hst').
    exists st'. now rewrite Hst'.
Qed.

(** X8.  Nothing but the status of a tile ever changes: after any run
    of nights the catalog has the same length, and the tile at each index
    is the tile that was there with its status replaced; id, coordinates,
    program, LST window and priority are those [__init__] gave it. *)
Theorem run_nights_keeps_catalog :
  forall (mjd2lst : Q -> Q) (radec2altaz : Q -> Q -> Q -> Q * Q)
         (nights : list (DayStats * list (Z * Z))) (self : surveyPlan),
    List.length (tiles (run_nights mjd2lst radec2altaz self nights))
    = List.length (tiles self) /\
    (forall i t,
        nth_error (tiles self) i = Some t ->
        exists st,
          nth_error (tiles (run_nights mjd2lst radec2altaz self nights)) i
          = Some (with_status st t)).
Proof.
  intros mjd2lst radec2altaz nights self. split; [apply run_nights_length|].
  apply run_nights_keeps_tile.
Qed.

Lemma run_nights_keeps_catalog_witness :
  exists st,
    nth_error (tiles (run_nights sample_mjd2lst sample_radec2altaz sample_planner
                                 [(dark_night, [(1, 1)%Z]); (no_moon_night, [(1, 2)%Z])]))
              0
    = Some (with_status st (tile_of_row (sample_row 1 100 0 "DARK"))).
Proof.
  apply (run_nights_keeps_catalog sample_mjd2lst sample_radec2altaz).
  reflexivity.
Defined.

(** X9.  Only the last pair for each id counts: two logs whose last
    pair agrees for every id of the catalog leave the same statuses.  So
    pairs for different ids can be put in any order, and a log applied a
    second time changes nothing. *)
Theorem update_status_last_pairs_decide :
  forall (ts : list Tile) (log1 log2 : list (Z * Z)),
    (forall t, In t ts -> last_status (tileID t) log1 = last_status (tileID t) log2) ->
    update_status log1 ts = update_status log2 ts /\
    update_status log1 (update_status log1 ts) = update_status log1 ts.
Proof.
  intros ts log1 log2 H. split.
  - apply nth_error_ext. intros i. rewrite !update_status_nth.
    destruct (nth_error ts i) as [t |] eqn:Ht; [| reflexivity].
    cbn [option_map]. rewrite (H t) by now apply (nth_error_In ts i).
    reflexivity.
  - apply nth_error_ext. intros i. rewrite !update_status_nth.
    destruct (nth_error ts i) as [t |]; [| reflexivity].
    cbn [option_map]. f_equal.
    destruct (last_status (tileID t) log1) as [st |] eqn:E.
    + rewrite tileID_with_status, E. apply with_status_twice.
    + now rewrite E.
Qed.

(** Two orders of a log for tiles 1 and 3. *)
Lemma update_status_last_pairs_decide_witness :
  update_status [(1, 2); (3, 1); (1, 1)]%Z (tiles sample_planner)
  = update_status [(1, 1); (3, 1)]%Z (tiles sample_planner).
Proof.
  apply (update_status_last_pairs_decide (tiles sample_planner)).
  intros t Ht. cbn in Ht.
  destruct Ht as [E | [E | [E | []]]]; subst t; reflexivity.
Defined.

(** ** The order of the plan *)

Lemma insert_desc_In x y l : In y (insert_desc x l) <-> y = x \/ In y l.
Proof.
  split.
  - intros H. apply (Permutation_in _ (insert_desc_perm x l)) in H.
    destruct H as [<- | H]; auto.
  - intros H. apply (Permutation_in _ (Permutation_sym (insert_desc_perm x l))).
    destruct H as [-> | H]; [now left | now right].
Qed.

Lemma insert_desc_sorted x l :
  StronglySorted (fun a b => (itemgetter7 b <= itemgetter7 a)%Z) l ->
  StronglySorted (fun a b => (itemgetter7 b <= itemgetter7 a)%Z) (insert_desc x l).
Proof.
  induction 1 as [| y l Hs IH Hall]; cbn.
  - repeat constructor.
  - destruct (Z.ltb_spec (itemgetter7 x) (itemgetter7 y)) as [Hlt | Hge].
    + constructor; [exact IH|].
      apply Forall_forall. intros z Hz. apply insert_desc_In in Hz.
      destruct Hz as [-> | Hz]; [lia|].
      rewrite Forall_forall in Hall. now apply Hall.
    + constructor; [now constructor|].
      constructor; [exact Hge|].
      revert Hall. apply Forall_impl. intros z Hz. lia.
Qed.

Lemma sorted_desc_sorted l :
  StronglySorted (fun a b => (itemgetter7 b <= itemgetter7 a)%Z) (sorted_desc l).
Proof.
  induction l as [| x l IH]; cbn.
  - constructor.
  - now apply insert_desc_sorted.
Qed.

Lemma sorted_desc_descending l : priority_descending (sorted_desc l).
Proof.
  pose proof (sorted_desc_sorted l) as H.
  induction H as [| y l' Hs IH Hall]; intros i j ri rj Hij Hi Hj.
  - destruct i; discriminate.
  - destruct i as [| i]; destruct j as [| j]; cbn in Hi, Hj.
    + injection Hi as <-. injection Hj as <-. lia.
    + injection Hi as <-. apply nth_error_In in Hj.
      rewrite Forall_forall in Hall. now apply Hall.
    + lia.
    + apply (IH i j); [lia | assumption | assumption].
Qed.

Lemma insert_desc_filter p x l :
  filter (fun r => (itemgetter7 r =? p)%Z) (insert_desc x l) =
  if (itemgetter7 x =? p)%Z
  then x :: filter (fun r => (itemgetter7 r =? p)%Z) l
  else filter (fun r => (itemgetter7 r =? p)%Z) l.
Proof.
  induction l as [| y l IH]; cbn.
  - reflexivity.
  - destruct (Z.ltb_spec (itemgetter7 x) (itemgetter7 y)) as [Hlt | Hge]; cbn.
    + rewrite IH.
      destruct (Z.eqb_spec (itemgetter7 x) p) as [Ex | Ex];
        destruct (Z.eqb_spec (itemgetter7 y) p) as [Ey | Ey];
        try reflexivity; lia.
    + reflexivity.
Qed.

Lemma sorted_desc_filter p l :
  filter (fun r => (itemgetter7 r =? p)%Z) (sorted_desc l) =
  filter (fun r => (itemgetter7 r =? p)%Z) l.
Proof.
  induction l as [| x l IH]; [reflexivity|].
  change (sorted_desc (x :: l)) with (insert_desc x (sorted_desc l)).
  rewrite insert_desc_filter, IH. cbn [filter].
  destruct (itemgetter7 x =? p)%Z; reflexivity.
Qed.

(** X10.  The plan list is in descending order of priority: no row has
    a higher priority than a row before it; and it holds one row for each
    tile that passed the selection, so at most as many as the catalog has
    tiles. *)
Theorem afternoonPlan_priority_descending :
  forall (mjd2lst : Q -> Q) (radec2altaz : Q -> Q -> Q -> Q * Q)
         (self : surveyPlan) (d : DayStats) (log : list (Z * Z)),
    let out := afternoonPlan mjd2lst radec2altaz self d log in
    priority_descending (planList out) /\
    List.length (planList out)
    = List.length (filter (eligible (out_self out)) (tiles (out_self out))) /\
    (List.length (planList out) <= List.length (tiles self))%nat.
Proof.
  intros mjd2lst radec2altaz self d log out. split; [| split].
  - apply sorted_desc_descending.
  - cbn [planList out afternoonPlan out_self].
    rewrite (Permutation_length (sorted_desc_perm _)).
    unfold planList0. now rewrite length_map.
  - cbn [planList out afternoonPlan].
    rewrite (Permutation_length (sorted_desc_perm _)).
    unfold planList0. rewrite length_map.
    eapply Nat.le_trans; [apply filter_length_le|].
    unfold night_state. rewrite getDarkTimes_tiles. cbn [tiles set_tiles].
    now rewrite update_status_length.
Qed.

(** X11.  The sort is stable: the rows of any one priority stand in
    the plan in the order of their tiles in the catalog. *)
Theorem afternoonPlan_stable :
  forall (mjd2lst : Q -> Q) (radec2altaz : Q -> Q -> Q -> Q * Q)
         (self : surveyPlan) (d : DayStats) (log : list (Z * Z)) (p : Z),
    let out := afternoonPlan mjd2lst radec2altaz self d log in
    filter (fun r => (itemgetter7 r =? p)%Z) (planList out)
    = map plan_row
          (filter (fun t => (priority t =? p)%Z)
                  (filter (eligible (out_self out)) (tiles (out_self out)))).
Proof.
  intros mjd2lst radec2altaz self d log p out.
  cbn [planList out afternoonPlan out_self].
  rewrite sorted_desc_filter. unfold planList0.
  rewrite filter_map_swap. reflexivity.
Qed.

(** ** Nights without a window, and finished tiles *)

Lemma isItDark_never_DARK mjd2lst radec2altaz s d :
  MJDmoonrise d <= 0 -> LST_dark1_begin s <= 0 ->
  forall lst, isItDark (getDarkTimes mjd2lst radec2altaz s d) lst <> "DARK"%string.
Proof.
  intros Hrise Hb lst.
  destruct (getDarkTimes_moonrise_not_positive mjd2lst radec2altaz s d Hrise)
    as (Hb1 & He1 & Hb2 & He2 & _).
  unfold isItDark. rewrite Hb1, He1, Hb2, He2.
  assert (E : Qltb 0 (LST_dark1_begin s) = false) by now apply Qltb_ge.
  rewrite E. change (Qltb 0 (-1)) with false. cbn [andb orb].
  destruct (getDarkTimes_moonUp mjd2lst radec2altaz s d) as [E' | E'];
    rewrite E'; discriminate.
Qed.

(** X12.  When the moonrise entry of the night is not positive and the
    object holds no first window (as a fresh object does), no LST of the
    night is DARK, so the plan leaves out every tile of the DARK program
    and takes every other tile whose status is below 2. *)
Theorem afternoonPlan_no_window_no_dark_tiles :
  forall (mjd2lst : Q -> Q) (radec2altaz : Q -> Q -> Q -> Q * Q)
         (self : surveyPlan) (d : DayStats) (log : list (Z * Z)),
    MJDmoonrise d <= 0 ->
    LST_dark1_begin self <= 0 ->
    let out := afternoonPlan mjd2lst radec2altaz self d log in
    forall t, In t (tiles (out_self out)) ->
              (In (plan_row t) (planList out) <->
               (status t < 2)%Z /\ program t <> "DARK"%string).
Proof.
  intros mjd2lst radec2altaz self d log Hrise Hb out t Ht.
  assert (Hnever : forall lst, isItDark (out_self out) lst <> "DARK"%string).
  { intros lst. cbn [out out_self afternoonPlan]. unfold night_state.
    now apply isItDark_never_DARK. }
  unfold out. rewrite planList_In. fold out. split.
  - intros (t' & _ & Hel & E).
    rewrite <- (eligible_plan_row (out_self out) t t' E) in Hel.
    apply eligible_true_iff in Hel.
    destruct Hel as [Hst [(Hmin & _) | (_ & Hp)]].
    + exfalso. exact (Hnever _ Hmin).
    + now split.
  - intros [Hst Hp]. exists t. split; [assumption | split; [| reflexivity]].
    apply eligible_true_iff. split; [assumption|].
    right. split; [| assumption]. left. apply Hnever.
Qed.

(** The first night of the sample planner, a night without moon: the
    BRIGHT tile 2 is planned, the DARK tile 1 is not. *)
Lemma afternoonPlan_no_window_no_dark_tiles_witness :
  let out := afternoonPlan sample_mjd2lst sample_radec2altaz sample_planner
                           no_moon_night [] in
  In (plan_row (tile_of_row (sample_row 2 345 0 "BRIGHT"))) (planList out) /\
  ~ In (plan_row (tile_of_row (sample_row 1 100 0 "DARK"))) (planList out).
Proof.
  intros out.
  assert (Hrise : MJDmoonrise no_moon_night <= 0) by (cbn; lra).
  assert (Hb : LST_dark1_begin sample_planner <= 0) by (cbn; lra).
  pose proof (afternoonPlan_no_window_no_dark_tiles
                sample_mjd2lst sample_radec2altaz sample_planner no_moon_night []
                Hrise Hb) as H.
  fold out in H. cbn zeta in H.
  assert (Ht : tiles (out_self out) = tiles sample_planner)
    by (unfold out; now rewrite afternoonPlan_tiles).
  split.
  - apply H.
    + rewrite Ht. right. left. reflexivity.
    + split; [cbn; lia | cbn; discriminate].
  - intros Hin. apply H in Hin.
    + destruct Hin as [_ Hp]. apply Hp. reflexivity.
    + rewrite Ht. left. reflexivity.
Defined.

Lemma run_nights_monotone mjd2lst radec2altaz nights self :
  nights_raise mjd2lst radec2altaz self nights ->
  status_monotone (tiles self) (tiles (run_nights mjd2lst radec2altaz self nights)).
Proof.
  revert self. induction nights as [| [d log] nights IH]; intros self H.
  - apply status_monotone_refl.
  - destruct H as [Hlog Hrest]. cbn [run_nights].
    apply status_monotone_trans
      with (b := tiles (out_self (afternoonPlan mjd2lst radec2altaz self d log))).
    + rewrite afternoonPlan_tiles. now rewrite update_status_length.
    + rewrite afternoonPlan_tiles. now apply update_status_monotone.
    + now apply IH.
Qed.

(** X13.  A tile that has reached status 2 stays out of every later
    plan as long as no log lowers a status: after any run of nights whose
    logs only raise, and a further night whose log only raises, the tile
    at that index has a status of at least 2 and its row is not in that
    night's plan. *)
Theorem finished_tile_stays_out :
  forall (mjd2lst : Q -> Q) (radec2altaz : Q -> Q -> Q -> Q * Q)
         (nights : list (DayStats * list (Z * Z))) (self : surveyPlan)
         (d : DayStats) (log : list (Z * Z)) (i : nat) (t : Tile),
    nth_error (tiles self) i = Some t ->
    (2 <= status t)%Z ->
    nights_raise mjd2lst radec2altaz self nights ->
    log_raises (tiles (run_nights mjd2lst radec2altaz self nights)) log ->
    let out := afternoonPlan mjd2lst radec2altaz
                             (run_nights mjd2lst radec2altaz self nights) d log in
    exists t',
      nth_error (tiles (out_self out)) i = Some t' /\
      tileID t' = tileID t /\
      (2 <= status t')%Z /\
      ~ In (plan_row t') (planList out).
Proof.
  intros mjd2lst radec2altaz nights self d log i t Ht Hdone Hnights Hlog out.
  set (mid := run_nights mjd2lst radec2altaz self nights) in *.
  assert (Hkeep : exists st, nth_error (tiles mid) i = Some (with_status st t))
    by (apply run_nights_keeps_tile; exact Ht).
  destruct Hkeep as (st & Hmid).
  assert (Hst : (2 <= st)%Z).
  { pose proof (run_nights_monotone mjd2lst radec2altaz nights self Hnights
                  i t (with_status st t) Ht Hmid) as Hm.
    cbn in Hm. lia. }
  destruct (update_status_keeps_tile log (tiles mid) i _ Hmid) as (st' & Hout).
  rewrite with_status_twice in Hout.
  assert (Hst' : (2 <= st')%Z).
  { pose proof (update_status_monotone log (tiles mid) Hlog
                  i (with_status st t) (with_status st' t) Hmid Hout) as Hm.
    cbn in Hm. lia. }
  rewrite <- afternoonPlan_tiles with (mjd2lst := mjd2lst)
    (radec2altaz := radec2altaz) (d := d) in Hout.
  fold out in Hout.
  exists (with_status st' t). repeat split; try assumption.
  unfold out. rewrite planList_In. fold out.
  intros (t' & _ & Hel & E).
  rewrite <- (eligible_plan_row (out_self out) _ t' E) in Hel.
  apply eligible_true_iff in Hel. cbn in Hel. lia.
Qed.

(** Tile 1 is done on the first night; on the third its row is not in
    the plan. *)
Lemma finished_tile_stays_out_witness :
  let out := afternoonPlan sample_mjd2lst sample_radec2altaz
               (run_nights sample_mjd2lst sample_radec2altaz
                           (out_self (afternoonPlan sample_mjd2lst sample_radec2altaz
                                                    sample_planner dark_night [(1, 2)%Z]))
                           [(two_window_night, [(3, 1)%Z])])
               dark_night [(3, 2)%Z] in
  exists t',
    nth_error (tiles (out_self out)) 0 = Some t' /\
    tileID t' = 1%Z /\
    (2 <= status t')%Z /\
    ~ In (plan_row t') (planList out).
Proof.
  apply (finished_tile_stays_out
           sample_mjd2lst sample_radec2altaz
           [(two_window_night, [(3, 1)%Z])]
           (out_self (afternoonPlan sample_mjd2lst sample_radec2altaz
                                    sample_planner dark_night [(1, 2)%Z]))
           dark_night [(3, 2)%Z] 0%nat
           (with_status 2 (tile_of_row (sample_row 1 100 0 "DARK")))).
  - rewrite afternoonPlan_tiles. reflexivity.
  - cbn. lia.
  - cbn [nights_raise]. rewrite !afternoonPlan_tiles.
    repeat split; intros t Ht; cbn in Ht;
      repeat (destruct Ht as [Ht | Ht]; [subst t; cbn; lia |]); destruct Ht.
  - cbn [run_nights]. rewrite !afternoonPlan_tiles.
    repeat split; intros t Ht; cbn in Ht;
      repeat (destruct Ht as [Ht | Ht]; [subst t; cbn; lia |]); destruct Ht.
Defined.

(** * Further properties of the weather table *)

Lemma np_ones_Ok n col : np_ones n = Ok col -> (0 <= n)%Z /\ col = repeat true (Z.to_nat n).
Proof.
  unfold np_ones. destruct (Z.ltb_spec n 0) as [Hneg | Hpos]; [discriminate|].
  intros E. injection E as <-. now split.
Qed.

Lemma set_slice_from_length k lo hi v col :
  List.length (set_slice_from k lo hi v col) = List.length col.
Proof.
  revert k. induction col as [| x col IH]; intros k; cbn; [reflexivity|].
  now rewrite IH.
Qed.

Lemma set_slice_from_nth col : forall k lo hi v j d,
  (j < List.length col)%nat ->
  nth j (set_slice_from k lo hi v col) d =
  if ((lo <=? k + Z.of_nat j) && (k + Z.of_nat j <? hi))%Z then v else nth j col d.
Proof.
  induction col as [| x col IH]; intros k lo hi v j d Hj; cbn in Hj; [lia|].
  destruct j as [| j]; cbn [set_slice_from nth].
  - now rewrite Z.add_0_r.
  - rewrite IH by lia.
    replace (k + 1 + Z.of_nat j)%Z with (k + Z.of_nat (S j))%Z by lia.
    reflexivity.
Qed.

Lemma night_of_row steps i k :
  (0 < steps)%Z ->
  ((i * steps <= k) /\ (k < i * steps + steps) <-> k / steps = i)%Z.
Proof.
  intros Hs. split.
  - intros [Hlo Hhi]. symmetry. apply (Z.div_unique k steps i (k - i * steps)); lia.
  - intros <-. pose proof (Z.div_mod k steps) as E.
    pose proof (Z.mod_pos_bound k steps Hs) as B. nia.
Qed.

Section WeatherTableFacts.

Variable RandomState : Type.
Variable config_first_day config_last_day : Z.
Variable local_noon_on_date : Z -> Q.
Variable month_of_mjd : Q -> Z.
Variable dome_closed_probabilities : list Q.
Variable fresh_RandomState : RandomState.
Variable uniform : RandomState -> Q * RandomState.
Variable sample_seeing : Z -> Q -> RandomState -> (nat -> Q) * RandomState.
Variable sample_transp : Z -> Q -> RandomState -> (nat -> Q) * RandomState.

(** A column in which the rows of one night all hold the same flag. *)
Lemma dome_loop_night_constant t0 steps nights :
  (0 < steps)%Z ->
  forall col gen,
    (forall k k', (k < List.length col)%nat -> (k' < List.length col)%nat ->
                  same_night steps k k' -> nth k col true = nth k' col true) ->
    let col' := fst (dome_loop RandomState month_of_mjd dome_closed_probabilities
                               uniform t0 steps nights col gen) in
    List.length col' = List.length col /\
    (forall k k', (k < List.length col)%nat -> (k' < List.length col)%nat ->
                  same_night steps k k' -> nth k col' true = nth k' col' true).
Proof.
  intros Hs. induction nights as [| i nights IH]; intros col gen Hcol.
  - cbn. split; [reflexivity | exact Hcol].
  - cbn [dome_loop]. destruct (uniform gen) as [u gen'].
    match goal with
    | |- context [dome_loop _ _ _ _ _ _ _ ?c _] => set (col1 := c)
    end.
    assert (Hlen1 : List.length col1 = List.length col).
    { unfold col1. destruct (Qltb _ _); [apply set_slice_from_length | reflexivity]. }
    assert (Hcol1 : forall k k', (k < List.length col1)%nat ->
                                 (k' < List.length col1)%nat ->
                                 same_night steps k k' ->
                                 nth k col1 true = nth k' col1 true).
    { rewrite Hlen1. intros k k' Hk Hk' Hsame. unfold col1.
      destruct (Qltb _ _); [| now apply Hcol].
      unfold set_slice. rewrite !set_slice_from_nth by assumption.
      rewrite !Z.add_0_l.
      unfold same_night in Hsame.
      destruct (Z.leb_spec (i * steps) (Z.of_nat k));
        destruct (Z.ltb_spec (Z.of_nat k) (i * steps + steps));
        destruct (Z.leb_spec (i * steps) (Z.of_nat k'));
        destruct (Z.ltb_spec (Z.of_nat k') (i * steps + steps));
        cbn [andb]; try reflexivity; try (now apply Hcol);
        exfalso;
        first [ assert (E : (Z.of_nat k / steps = i)%Z)
                  by (apply night_of_row; [assumption | split; assumption]);
                rewrite E in Hsame; symmetry in Hsame;
                apply night_of_row in Hsame; [lia | assumption]
              | assert (E : (Z.of_nat k' / steps = i)%Z)
                  by (apply night_of_row; [assumption | split; assumption]);
                rewrite E in Hsame;
                apply night_of_row in Hsame; [lia | assumption] ]. }
    destruct (IH col1 gen' Hcol1) as [Hlen Hconst].
    split; [now rewrite Hlen|].
    rewrite <- Hlen1. exact Hconst.
Qed.

(** What a returned object is made of. *)
Lemma Weather_init_Ok_inv start_date stop_date time_step gen w :
  Weather_init RandomState config_first_day config_last_day local_noon_on_date
               month_of_mjd dome_closed_probabilities fresh_RandomState uniform
               sample_seeing sample_transp start_date stop_date time_step gen
  = Ok w ->
  let start := match start_date with None => config_first_day | Some d => d end in
  let stop := match stop_date with None => config_last_day | Some d => d end in
  let nights := (stop - start)%Z in
  let steps := py_round (1 / time_step) in
  (0 < nights)%Z /\ (0 < steps)%Z /\
  np_allclose (inject_Z steps * time_step) 1 = true /\
  exists g see tr,
    w = {| _table :=
             map (fun k =>
                    {| mjd := nth k (map (fun j => local_noon_on_date start
                                                   + inject_Z j / inject_Z steps)
                                         (np_arange (nights * steps))) 0;
                       open := nth k (fst (dome_loop RandomState month_of_mjd
                                             dome_closed_probabilities uniform
                                             (local_noon_on_date start) steps
                                             (np_arange nights)
                                             (repeat true (Z.to_nat (nights * steps)))
                                             g)) true;
                       seeing := see k;
                       transparency := tr k |})
                 (seq 0 (Z.to_nat (nights * steps)));
           start_date := start;
           stop_date := stop;
           num_nights := nights;
           steps_per_day := steps;
           log_warn := match gen with
                       | None => ["Will generate unreproducible random numbers."%string]
                       | Some _ => []
                       end |}.
Proof.
  intros H start stop nights steps. unfold Weather_init in H.
  assert (Hgen : exists g, g = match gen with None => fresh_RandomState | Some g => g end)
    by (eexists; reflexivity).
  destruct Hgen as (g & Hg).
  assert (H' :
    (if (nights <=? 0)%Z then Raise ValueError
     else if Qeq_bool time_step 0 || float_overflows (1 / time_step)
          then Raise OverflowError
     else if negb (np_allclose (inject_Z steps * time_step) 1) then Raise ValueError
     else
       col <- np_ones (nights * steps) ;;
       (let '(col0, gen0) :=
          dome_loop RandomState month_of_mjd dome_closed_probabilities uniform
                    (local_noon_on_date start) steps (np_arange nights) col g in
        let '(see, gen1) := sample_seeing (nights * steps)%Z
                                          (24 * 3600 / inject_Z steps) gen0 in
        let '(tr, _) := sample_transp (nights * steps)%Z
                                      (24 * 3600 / inject_Z steps) gen1 in
        Ok {| _table :=
                map (fun k =>
                       {| mjd := nth k (map (fun j => local_noon_on_date start
                                                      + inject_Z j / inject_Z steps)
                                            (np_arange (nights * steps))) 0;
                          open := nth k col0 true;
                          seeing := see k;
                          transparency := tr k |})
                    (seq 0 (Z.to_nat (nights * steps)));
              start_date := start;
              stop_date := stop;
              num_nights := nights;
              steps_per_day := steps;
              log_warn := match gen with
                          | None => ["Will generate unreproducible random numbers."%string]
                          | Some _ => []
                          end |})) = Ok w).
  { subst g. destruct gen; exact H. }
  clear H.
  destruct (Z.leb_spec nights 0) as [Hn | Hn]; [discriminate|].
  destruct (Qeq_bool time_step 0 || float_overflows (1 / time_step));
    [discriminate|].
  destruct (np_allclose (inject_Z steps * time_step) 1) eqn:Hclose; [| discriminate].
  cbn [negb] in H'.
  destruct (np_ones (nights * steps)) as [col | e] eqn:Hones; [| discriminate].
  apply np_ones_Ok in Hones. destruct Hones as [Hrows ->].
  cbn [bind] in H'.
  assert (Hs : (0 < steps)%Z).
  { destruct (Z.eq_dec steps 0) as [E | E].
    - rewrite E, np_allclose_zero_steps in Hclose. discriminate.
    - nia. }
  repeat split; try assumption.
  destruct (dome_loop _ _ _ _ _ _ _ _ _) as [col0 gen0] eqn:Hloop.
  destruct (sample_seeing _ _ _) as [see gen1].
  destruct (sample_transp _ _ _) as [tr gen2].
  injection H' as <-.
  exists g, see, tr. rewrite Hloop. reflexivity.
Qed.

End WeatherTableFacts.


Lemma py_round_integer (z : Z) : py_round (inject_Z z) = z.
Proof.
  unfold py_round. rewrite Qfloor_Z.
  assert (E : Qltb (inject_Z z - inject_Z z) (1 # 2) = true)
    by (apply Qltb_lt; lra).
  now rewrite E.
Qed.

Lemma np_allclose_exact a : a == 1 -> np_allclose a 1 = true.
Proof.
  intros E. unfold np_allclose. apply Qleb_le.
  assert (E0 : a - 1 == 0) by lra.
  rewrite E0. cbn. lra.
Qed.

Section WeatherObjectFacts.

Variable RandomState : Type.
Variable config_first_day config_last_day : Z.
Variable local_noon_on_date : Z -> Q.
Variable month_of_mjd : Q -> Z.
Variable dome_closed_probabilities : list Q.
Variable fresh_RandomState : RandomState.
Variable uniform : RandomState -> Q * RandomState.
Variable sample_seeing : Z -> Q -> RandomState -> (nat -> Q) * RandomState.
Variable sample_transp : Z -> Q -> RandomState -> (nat -> Q) * RandomState.

(** X14.  Every object the constructor returns, for whatever step, has
    a positive number of nights, a positive number of steps a day, a table
    of exactly [num_nights * steps_per_day] rows, so never an empty one,
    whose row [k] carries the time [k / steps_per_day] days after local
    noon of the start date; and it carries the warning about
    unreproducible numbers exactly when no generator was given. *)
Theorem Weather_init_object_invariants :
  forall (start stop : option Z) (time_step : Q)
         (gen : option RandomState) (w : Weather),
    Weather_init RandomState config_first_day config_last_day local_noon_on_date
                 month_of_mjd dome_closed_probabilities fresh_RandomState uniform
                 sample_seeing sample_transp start stop time_step gen
    = Ok w ->
    (0 < num_nights w)%Z /\
    (0 < steps_per_day w)%Z /\
    num_nights w = (stop_date w - start_date w)%Z /\
    Z.of_nat (List.length (_table w)) = (num_nights w * steps_per_day w)%Z /\
    _table w <> [] /\
    (forall k r,
        nth_error (_table w) k = Some r ->
        mjd r = local_noon_on_date (start_date w)
                + inject_Z (Z.of_nat k) / inject_Z (steps_per_day w)) /\
    (log_warn w <> [] <-> gen = None).
Proof.
  intros start_date0 stop_date0 time_step gen w H.
  apply Weather_init_Ok_inv in H.
  destruct H as (Hn & Hs & _ & g & see & tr & ->).
  cbn [num_nights steps_per_day _table start_date stop_date log_warn].
  set (start := match start_date0 with None => config_first_day | Some d => d end) in *.
  set (stop := match stop_date0 with None => config_last_day | Some d => d end) in *.
  set (steps := py_round (1 / time_step)) in *.
  assert (Hlen : forall F : nat -> Row,
             List.length (map F (seq 0 (Z.to_nat ((stop - start) * steps))))
             = Z.to_nat ((stop - start) * steps))
    by (intros F; now rewrite length_map, length_seq).
  repeat split; try assumption.
  - rewrite Hlen. nia.
  - intros E. apply (f_equal (@List.length Row)) in E.
    rewrite Hlen in E. cbn in E. nia.
  - intros k r Hk.
    assert (Hlt : (k < Z.to_nat ((stop - start) * steps))%nat).
    { rewrite <- (Hlen (fun k0 =>
        {| mjd := nth k0 (map (fun j => local_noon_on_date start
                                        + inject_Z j / inject_Z steps)
                              (np_arange ((stop - start) * steps))) 0;
           open := nth k0 (fst (dome_loop RandomState month_of_mjd
                                  dome_closed_probabilities uniform
                                  (local_noon_on_date start) steps
                                  (np_arange (stop - start))
                                  (repeat true (Z.to_nat ((stop - start) * steps)))
                                  g)) true;
           seeing := see k0;
           transparency := tr k0 |})).
      apply nth_error_Some. rewrite Hk. discriminate. }
    rewrite nth_error_map, (nth_error_seq0 _ _ Hlt) in Hk. cbn in Hk.
    injection Hk as <-. cbn [mjd].
    unfold np_arange. rewrite map_map.
    erewrite nth_error_nth; [reflexivity |].
    rewrite nth_error_map, (nth_error_seq0 _ _ Hlt). reflexivity.
  - destruct gen; [intros Hne; now elim Hne | reflexivity].
  - intros ->. discriminate.
Qed.

(** X15.  The dome is open or closed for a night as a whole: two rows
    of a returned table that belong to the same night (the same quotient
    of the row index by [steps_per_day]) have the same [open] flag. *)
Theorem Weather_init_dome_per_night :
  forall (start_date stop_date : option Z) (time_step : Q)
         (gen : option RandomState) (w : Weather),
    Weather_init RandomState config_first_day config_last_day local_noon_on_date
                 month_of_mjd dome_closed_probabilities fresh_RandomState uniform
                 sample_seeing sample_transp start_date stop_date time_step gen
    = Ok w ->
    forall k k' r r',
      nth_error (_table w) k = Some r ->
      nth_error (_table w) k' = Some r' ->
      same_night (steps_per_day w) k k' ->
      open r = open r'.
Proof.
  intros start_date0 stop_date0 time_step gen w H k k' r r' Hk Hk' Hsame.
  apply Weather_init_Ok_inv in H.
  destruct H as (Hn & Hs & _ & g & see & tr & Hw).
  set (start := match start_date0 with None => config_first_day | Some d => d end) in *.
  set (stop := match stop_date0 with None => config_last_day | Some d => d end) in *.
  set (steps := py_round (1 / time_step)) in *.
  set (n := Z.to_nat ((stop - start) * steps)) in *.
  set (col := fst (dome_loop RandomState month_of_mjd dome_closed_probabilities
                             uniform (local_noon_on_date start) steps
                             (np_arange (stop - start)) (repeat true n) g)) in *.
  set (F := fun k0 : nat =>
              {| mjd := nth k0 (map (fun j => local_noon_on_date start
                                              + inject_Z j / inject_Z steps)
                                    (np_arange ((stop - start) * steps))) 0;
                 open := nth k0 col true;
                 seeing := see k0;
                 transparency := tr k0 |}) in *.
  assert (Htab : _table w = map F (seq 0 n)) by now rewrite Hw.
  assert (Hsteps : steps_per_day w = steps) by now rewrite Hw.
  rewrite Hsteps in Hsame. rewrite Htab in Hk, Hk'.
  assert (Hlt : forall j x, nth_error (map F (seq 0 n)) j = Some x -> (j < n)%nat).
  { intros j x Hj.
    assert (L : (j < List.length (map F (seq 0 n)))%nat)
      by (apply nth_error_Some; rewrite Hj; discriminate).
    now rewrite length_map, length_seq in L. }
  pose proof (Hlt _ _ Hk) as Lk. pose proof (Hlt _ _ Hk') as Lk'.
  rewrite nth_error_map, (nth_error_seq0 _ _ Lk) in Hk.
  rewrite nth_error_map, (nth_error_seq0 _ _ Lk') in Hk'.
  cbn in Hk, Hk'. injection Hk as <-. injection Hk' as <-. cbn [open F].
  destruct (dome_loop_night_constant
              RandomState month_of_mjd dome_closed_probabilities uniform
              (local_noon_on_date start) steps (np_arange (stop - start)) Hs
              (repeat true n) g) as [_ Hconst].
  - intros a b _ _ _. now rewrite !nth_repeat.
  - apply Hconst; try (rewrite repeat_length; assumption). exact Hsame.
Qed.

(** X16.  A step of exactly one [n]-th of a day, [n] a positive
    integer up to 86400000 (steps of a millisecond or more), is accepted
    whenever the date range is valid: the constructor returns an object
    with [steps_per_day = n] and [num_nights * n] rows. *)
Theorem Weather_init_accepts_divisor :
  forall (start_date stop_date : option Z) (n : positive)
         (gen : option RandomState),
    let start := match start_date with None => config_first_day | Some d => d end in
    let stop := match stop_date with None => config_last_day | Some d => d end in
    (start < stop)%Z ->
    (Z.pos n <= 86400000)%Z ->
    exists w,
      Weather_init RandomState config_first_day config_last_day local_noon_on_date
                   month_of_mjd dome_closed_probabilities fresh_RandomState uniform
                   sample_seeing sample_transp start_date stop_date (1 # n) gen
      = Ok w /\
      steps_per_day w = Z.pos n /\
      num_nights w = (stop - start)%Z /\
      List.length (_table w) = Z.to_nat ((stop - start) * Z.pos n).
Proof.
  intros start_date0 stop_date0 n gen start stop Hdates Hn.
  assert (Hround : py_round (1 / (1 # n)) = Z.pos n).
  { change (1 / (1 # n)) with (inject_Z (Z.pos n)). apply py_round_integer. }
  assert (Hclose : np_allclose (inject_Z (Z.pos n) * (1 # n)) 1 = true).
  { apply np_allclose_exact.
    change (1 # n) with (/ inject_Z (Z.pos n)).
    apply Qmult_inv_r. unfold inject_Z, Qeq. cbn. lia. }
  assert (Hfin : float_overflows (1 / (1 # n)) = false).
  { change (1 / (1 # n)) with (inject_Z (Z.pos n)).
    apply float_overflows_bounded.
    rewrite Qabs_pos by (change 0 with (inject_Z 0); rewrite <- Zle_Qle; lia).
    change 86400000 with (inject_Z 86400000). now rewrite <- Zle_Qle. }
  unfold Weather_init. fold start. fold stop.
  destruct gen as [g |]; cbv beta iota zeta; fold start; fold stop;
    (destruct (Z.leb_spec (stop - start) 0); [lia |]);
    change (Qeq_bool (1 # n) 0) with false; rewrite Hfin; cbn [orb];
    rewrite Hround, Hclose; cbn [negb];
    rewrite np_ones_nonneg by nia; cbn [bind];
    destruct (dome_loop _ _ _ _ _ _ _ _ _) as [col g1];
    destruct (sample_seeing _ _ _) as [see g2];
    destruct (sample_transp _ _ _) as [tr g3];
    eexists; (split; [reflexivity |]);
    cbn [steps_per_day num_nights _table];
    rewrite length_map, length_seq; repeat split.
Qed.

End WeatherObjectFacts.

(** With the stand-ins: six-hour steps over two nights, the generator
    starting at a draw that closes the first night. *)
Lemma Weather_init_object_invariants_witness :
  exists w,
    sample_Weather_init (Some 57000%Z) (Some 57002%Z) (1 # 4) (Some 0%nat) = Ok w /\
    Z.of_nat (List.length (_table w)) = (num_nights w * steps_per_day w)%Z /\
    _table w <> [].
Proof.
  destruct (sample_Weather_init (Some 57000%Z) (Some 57002%Z) (1 # 4) (Some 0%nat))
    as [w | e] eqn:E; [| vm_compute in E; discriminate].
  exists w. split; [reflexivity |].
  destruct (Weather_init_object_invariants _ _ _ _ _ _ _ _ _ _ _ _ _ _ _ E)
    as (_ & _ & _ & Hlen & Hne & _).
  split; assumption.
Defined.

Lemma Weather_init_dome_per_night_witness :
  exists w r r',
    sample_Weather_init (Some 57000%Z) (Some 57002%Z) (1 # 4) (Some 0%nat) = Ok w /\
    nth_error (_table w) 1 = Some r /\
    nth_error (_table w) 3 = Some r' /\
    open r = open r'.
Proof.
  destruct (sample_Weather_init (Some 57000%Z) (Some 57002%Z) (1 # 4) (Some 0%nat))
    as [w | e] eqn:E; [| vm_compute in E; discriminate].
  destruct (nth_error (_table w) 1) as [r |] eqn:E1;
    [| exfalso; vm_compute in E; injection E as <-; discriminate E1].
  destruct (nth_error (_table w) 3) as [r' |] eqn:E3;
    [| exfalso; vm_compute in E; injection E as <-; discriminate E3].
  exists w, r, r'.
  split; [reflexivity | split; [exact E1 | split; [exact E3 |]]].
  apply (Weather_init_dome_per_night _ _ _ _ _ _ _ _ _ _ _ _ _ _ _ E 1%nat 3%nat);
    try assumption.
  vm_compute in E. injection E as <-. reflexivity.
Defined.

Lemma Weather_init_accepts_divisor_witness :
  exists w,
    sample_Weather_init (Some 57000%Z) (Some 57002%Z) (1 # 288) None = Ok w /\
    steps_per_day w = 288%Z /\
    num_nights w = 2%Z /\
    List.length (_table w) = 576%nat.
Proof.
  apply (Weather_init_accepts_divisor
           nat 57000%Z 57365%Z (fun d => inject_Z d + (1 # 2)) (fun _ => 1%Z)
           (repeat (1 # 4) 12) 0%nat
           (fun g => (inject_Z (Z.of_nat (g mod 4)) / 4, S g))
           (fun _ _ g => (fun _ => 1, S g))
           (fun _ _ g => (fun _ => 9 # 10, S g))
           (Some 57000%Z) (Some 57002%Z) 288%positive None).
  - reflexivity.
  - cbn. lia.
Defined.

(** ** [get], further *)





Lemma py_take_Ok_iff tab offsets rs :
  py_take tab offsets = Ok rs <->
  Forall2 (fun o r => py_index tab o = Ok r) offsets rs.
Proof.
  revert rs. induction offsets as [| o offsets IH]; intros rs; cbn.
  - split.
    + intros E. injection E as <-. constructor.
    + intros E. inversion E. reflexivity.
  - split.
    + destruct (py_index tab o) as [r | e] eqn:Eo; cbn; [| discriminate].
      destruct (py_take tab offsets) as [rs' | e] eqn:Et; cbn; [| discriminate].
      intros E. injection E as <-. constructor; [exact Eo | now apply IH].
    + intros E. inversion E as [| ? r ? rs' Ho Hrest]; subst.
      rewrite Ho. cbn. apply IH in Hrest. rewrite Hrest. reflexivity.
Qed.

Lemma get_scalar_Ok_iff self r0 rest t r :
  _table self = r0 :: rest ->
  get self (TScalar t) = Ok (SRow r) <->
  beyond_range (Z.of_nat (List.length (_table self)))
               [offset_of (mjd r0) (steps_per_day self) t] = false /\
  py_index (_table self) (offset_of (mjd r0) (steps_per_day self) t) = Ok r.
Proof.
  intros Htab. rewrite (get_nonempty self r0 rest _ Htab). cbn [offsets_of].
  destruct (beyond_range _ _).
  - split; [discriminate | intros [E _]; discriminate].
  - destruct (py_index _ _) as [r' | e]; cbn.
    + split.
      * intros E. injection E as <-. now split.
      * intros [_ E]. injection E as <-. reflexivity.
    + split; [discriminate | intros [_ E]; discriminate].
Qed.

Lemma beyond_range_each len offsets :
  beyond_range len offsets = false <->
  Forall (fun o => beyond_range len [o] = false) offsets.
Proof.
  rewrite beyond_range_false. split; apply Forall_impl; intros o Ho.
  - apply beyond_range_false. now repeat constructor.
  - apply beyond_range_false in Ho. now inversion Ho.
Qed.

(** X19.  On a table with a first row, a query with an array of times
    returns rows exactly when the query with each single time returns a
    row, and it returns those rows, one for each time and in the order of
    the times. *)
Theorem get_array_is_get_of_each :
  forall (self : Weather) (r0 : Row) (rest : list Row) (ts : list Q) (rs : list Row),
    _table self = r0 :: rest ->
    (get self (TArray ts) = Ok (SRows rs) <->
     Forall2 (fun t r => get self (TScalar t) = Ok (SRow r)) ts rs) /\
    (get self (TArray ts) = Ok (SRows rs) -> List.length rs = List.length ts).
Proof.
  intros self r0 rest ts rs Htab.
  assert (Hiff : get self (TArray ts) = Ok (SRows rs) <->
                 Forall2 (fun t r => get self (TScalar t) = Ok (SRow r)) ts rs).
  { rewrite (get_nonempty self r0 rest _ Htab). cbn [offsets_of].
    set (len := Z.of_nat (List.length (_table self))).
    set (off := offset_of (mjd r0) (steps_per_day self)).
    assert (Heach : forall t r,
               get self (TScalar t) = Ok (SRow r) <->
               beyond_range len [off t] = false /\ py_index (_table self) (off t) = Ok r)
      by (intros t r; apply (get_scalar_Ok_iff self r0 rest t r Htab)).
    split.
    - destruct (beyond_range len (map off ts)) eqn:Hb; [discriminate|].
      apply beyond_range_each in Hb. rewrite Forall_map in Hb.
      destruct (py_take (_table self) (map off ts)) as [rs' | e] eqn:Et;
        cbn; [| discriminate].
      intros E. injection E as <-.
      apply py_take_Ok_iff in Et.
      revert rs' Et. induction Hb as [| t ts' Ht Hrest IH]; intros rs' Et.
      + cbn in Et. inversion Et. constructor.
      + cbn in Et. inversion Et as [| ? r ? rs'' Hr Hrs]; subst.
        constructor; [apply Heach; now split | now apply IH].
    - intros H.
      assert (Hb : beyond_range len (map off ts) = false).
      { apply beyond_range_each. rewrite Forall_map.
        induction H as [| t r ts' rs' Ht _ IH]; constructor; [| exact IH].
        apply Heach in Ht. tauto. }
      assert (Et : py_take (_table self) (map off ts) = Ok rs).
      { apply py_take_Ok_iff.
        induction H as [| t r ts' rs' Ht _ IH]; cbn; constructor.
        - apply Heach in Ht. tauto.
        - apply IH.
          apply beyond_range_each in Hb. cbn in Hb. inversion Hb; subst.
          now apply beyond_range_each. }
      rewrite Hb, Et. reflexivity. }
  split; [exact Hiff|].
  intros H. apply Hiff in H. symmetry. now apply (Forall2_length H).
Qed.

Lemma get_array_is_get_of_each_witness :
  get small_weather (TArray [57001; 57000 + (1 # 2)])
  = Ok (SRows [mkWRow 57001 true (12 # 10) (8 # 10);
               mkWRow (57000 + (1 # 2)) true 1 1]).
Proof.
  destruct (get_array_is_get_of_each
              small_weather _ _ [57001; 57000 + (1 # 2)]
              [mkWRow 57001 true (12 # 10) (8 # 10);
               mkWRow (57000 + (1 # 2)) true 1 1] eq_refl) as [H _].
  apply H. repeat constructor.
Defined.

(** ** The span of times [get] answers *)







(** ** Windows that straddle LST 0 *)

Lemma window_test_empty b e lst :
  e <= b -> Qltb 0 b && Qltb b lst && Qltb 0 e && Qltb lst e = false.
Proof.
  intros H. apply not_true_iff_false. intros Ht.
  apply window_test in Ht. destruct Ht as (_ & H1 & _ & H2). lra.
Qed.

(** X21.  A window whose end is not above its begin holds no LST: the
    test is [begin < lst < end] with no wrap at 360 degrees.  So on a night
    with the moon rising after morning twilight, which sets the one window
    from evening to morning twilight, no LST is DARK when the LST of
    morning twilight is not above that of evening twilight. *)
Theorem isItDark_window_does_not_wrap :
  forall (mjd2lst : Q -> Q) (radec2altaz : Q -> Q -> Q -> Q * Q)
         (s : surveyPlan) (d : DayStats),
    0 < MJDmoonrise d ->
    MJDetwi d <= MJDmoonrise d ->
    MJDmtwi d <= MJDmoonrise d ->
    mjd2lst (MJDmtwi d) <= mjd2lst (MJDetwi d) ->
    let s' := getDarkTimes mjd2lst radec2altaz s d in
    dark_windows s' = (mjd2lst (MJDetwi d), mjd2lst (MJDmtwi d), -1, -1) /\
    (forall lst, isItDark s' lst <> "DARK"%string).
Proof.
  intros mjd2lst radec2altaz s d Hrise Hetwi Hmtwi Hwrap s'.
  assert (W : dark_windows s'
              = (mjd2lst (MJDetwi d), mjd2lst (MJDmtwi d), -1, -1)).
  { unfold s'. rewrite getDarkTimes_windows_moon_rises by assumption.
    cases_on_comparisons; reflexivity. }
  split; [exact W|].
  intros lst. unfold dark_windows in W. injection W as E1 E2 E3 E4.
  unfold isItDark. rewrite E1, E2, E3, E4.
  rewrite (window_test_empty _ _ _ Hwrap).
  change (Qltb 0 (-1)) with false. cbn [andb orb].
  destruct (getDarkTimes_moonUp mjd2lst radec2altaz s d) as [E | E];
    fold s' in E; rewrite E; discriminate.
Qed.

(** The straddling night: the window is (324, 108), and LST 350, in
    the night, is not DARK. *)
Lemma isItDark_window_does_not_wrap_witness :
  dark_windows (getDarkTimes sample_mjd2lst sample_radec2altaz
                             sample_planner straddling_night)
  = (324, 108, -1, -1) /\
  isItDark (getDarkTimes sample_mjd2lst sample_radec2altaz
                         sample_planner straddling_night) 350
  <> "DARK"%string.
Proof.
  assert (H1 : 0 < MJDmoonrise straddling_night) by reflexivity.
  assert (H2 : MJDetwi straddling_night <= MJDmoonrise straddling_night)
    by (cbn; lra).
  assert (H3 : MJDmtwi straddling_night <= MJDmoonrise straddling_night)
    by (cbn; lra).
  assert (H4 : sample_mjd2lst (MJDmtwi straddling_night)
               <= sample_mjd2lst (MJDetwi straddling_night))
    by (vm_compute; discriminate).
  destruct (isItDark_window_does_not_wrap
              sample_mjd2lst sample_radec2altaz sample_planner straddling_night
              H1 H2 H3 H4) as [W H].
  split; [exact W | apply H].
Defined.

(** ** Time stamps off the grid *)


